(** * EOL reconciliation engine of react_agent (src/react_agent/tools.py)

    A shallow embedding of [search], [fetch_eol_data], [parse_sbom] and
    [check_eol_dates].  Python values coming from JSON are a tagged union,
    exceptions are an explicit result type, the network, the clock and the
    JSON decoder are oracles of a Section.  Python's [None] is [JNull]
    throughout.  Calls to the logger change no result; they are kept only in
    [parse_sbom], where the level logged is the one difference between two of
    its exits. *)

From Stdlib Require Import List String Ascii ZArith Bool Lia Arith.
Import ListNotations.
Open Scope string_scope.
Open Scope list_scope.
Open Scope Z_scope.

(** ** Python values and exceptions *)

(** What [json.loads] / [response.json()] can produce.  A dict is an
    association list in insertion order with unique keys; a float is kept as
    its IEEE-754 double bit pattern. *)
#[warnings="-register-all"]
Inductive json : Type :=
| JNull
| JBool (b : bool)
| JInt (n : Z)
| JFloat (bits : Z)
| JStr (s : string)
| JArr (items : list json)
| JObj (fields : list (string * json)).

(** The exception classes that the modelled code paths can see;
    [OtherError] stands for any class not named here (RecursionError,
    MemoryError, asyncio.TimeoutError, ...).  JSONDecodeError is kept apart
    from ValueError, its base class: a handler for the former does not catch
    the latter. *)
Inductive exn : Type :=
| KeyError (key : string)
| TypeError
| AttributeError
| ValueError
| ClientError
| JSONDecodeError
| APIStatusError (msg : string)
| OtherError (msg : string).

Inductive outcome (A : Type) : Type :=
| Returns (a : A)
| Raises (e : exn).
Arguments Returns {A} a.
Arguments Raises {A} e.

Definition bind {A B : Type} (m : outcome A) (k : A -> outcome B) : outcome B :=
  match m with
  | Returns a => k a
  | Raises e => Raises e
  end.

Notation "x <- m ;; k" := (bind m (fun x => k))
  (at level 61, m at next level, right associativity).

(** ** Strings *)

Fixpoint prefixb (p s : string) : bool :=
  match p, s with
  | EmptyString, _ => true
  | String a p', String b s' => Ascii.eqb a b && prefixb p' s'
  | String _ _, EmptyString => false
  end.

(** [needle in haystack] on Python strings. *)
Fixpoint contains (needle haystack : string) : bool :=
  prefixb needle haystack ||
  match haystack with
  | EmptyString => false
  | String _ rest => contains needle rest
  end.

(** [s.split('.')[0]]: the characters before the first dot. *)
Fixpoint before_dot (s : string) : string :=
  match s with
  | EmptyString => EmptyString
  | String c rest => if Ascii.eqb c "."%char then EmptyString else String c (before_dot rest)
  end.

(** ** Dict and sequence primitives *)

Fixpoint dict_get (key : string) (fields : list (string * json)) : option json :=
  match fields with
  | [] => None
  | (k, v) :: rest => if String.eqb k key then Some v else dict_get key rest
  end.

(** [v[key]] with a string key: only a dict can answer, and only for a key it
    holds. *)
Definition py_getitem (v : json) (key : string) : outcome json :=
  match v with
  | JObj fields =>
      match dict_get key fields with
      | Some x => Returns x
      | None => Raises (KeyError key)
      end
  | _ => Raises TypeError
  end.

(** [d.get(key)] on a dict: [None] when the key is absent. *)
Definition py_get (fields : list (string * json)) (key : string) : json :=
  match dict_get key fields with
  | Some x => x
  | None => JNull
  end.

(** Truth value of a Python object. *)
Definition truthy (v : json) : bool :=
  match v with
  | JNull => false
  | JBool b => b
  | JInt n => negb (n =? 0)
  | JFloat bits => negb (Z.land bits (2 ^ 63 - 1) =? 0)
  | JStr s => negb (String.eqb s "")
  | JArr items => match items with [] => false | _ => true end
  | JObj fields => match fields with [] => false | _ => true end
  end.

Fixpoint chars (s : string) : list json :=
  match s with
  | EmptyString => []
  | String c rest => JStr (String c EmptyString) :: chars rest
  end.

(** The items a [for] or a generator sees. *)
Definition py_iter (v : json) : outcome (list json) :=
  match v with
  | JArr items => Returns items
  | JObj fields => Returns (map (fun kv => JStr (fst kv)) fields)
  | JStr s => Returns (chars s)
  | _ => Raises TypeError
  end.

Definition is_str (v : json) : bool :=
  match v with JStr _ => true | _ => false end.

(** [v == s] for a Python string [s]. *)
Definition eq_str (v : json) (s : string) : bool :=
  match v with JStr t => String.eqb t s | _ => false end.

(** ** search: the retry wrapper (tools.py 25-51) *)

Module Retry.

Inductive event : Type :=
| Call (attempt : nat)
| Sleep (seconds : Z).

Definition max_retries : nat := 5.

(** The [except APIStatusError] clause with its message test. *)
Definition overloaded (e : exn) : bool :=
  match e with
  | APIStatusError msg => contains "overloaded_error" msg
  | _ => false
  end.

Section Search.

(** [ainvoke k] is what [wrapped.ainvoke] does on the attempt numbered [k].
    The tool is built from the configuration before the loop starts; that
    construction belongs to the libraries and is not part of the model. *)
Variable ainvoke : nat -> outcome json.

(** The [for attempt in range(max_retries)] loop; the trace records every
    upstream call and every [asyncio.sleep]. *)
Fixpoint search_loop (attempts : list nat) (tr : list event)
  : outcome json * list event :=
  match attempts with
  | [] => (Returns JNull, tr)
  | attempt :: rest =>
      match ainvoke attempt with
      | Returns result => (Returns result, tr ++ [Call attempt])
      | Raises e =>
          if overloaded e
          then search_loop rest (tr ++ [Call attempt; Sleep (2 ^ Z.of_nat attempt)])
          else (Raises e, tr ++ [Call attempt])
      end
  end.

Definition search : outcome json * list event :=
  search_loop (seq 0 max_retries) [].

End Search.

Definition sleeps (tr : list event) : list Z :=
  flat_map (fun ev => match ev with Sleep s => [s] | Call _ => [] end) tr.

Definition calls (tr : list event) : list nat :=
  flat_map (fun ev => match ev with Call k => [k] | Sleep _ => [] end) tr.

End Retry.

(** ** datetime *)

Record datetime : Type := mk_datetime {
  year : Z; month : Z; day : Z;
  hour : Z; minute : Z; second : Z; microsecond : Z
}.

Definition dt_fields (d : datetime) : list Z :=
  [year d; month d; day d; hour d; minute d; second d; microsecond d].

Fixpoint lex_compare (a b : list Z) : comparison :=
  match a, b with
  | [], [] => Eq
  | [], _ :: _ => Lt
  | _ :: _, [] => Gt
  | x :: a', y :: b' =>
      match x ?= y with
      | Eq => lex_compare a' b'
      | c => c
      end
  end.

(** [a < b] on naive datetimes: field by field, most significant first. *)
Definition dt_ltb (a b : datetime) : bool :=
  match lex_compare (dt_fields a) (dt_fields b) with Lt => true | _ => false end.

Definition dt_leb (a b : datetime) : bool := negb (dt_ltb b a).

(** [datetime.max] *)
Definition datetime_max : datetime := mk_datetime 9999 12 31 23 59 59 999999.

Definition is_leap (y : Z) : bool :=
  (y mod 4 =? 0) && (negb (y mod 100 =? 0) || (y mod 400 =? 0)).

Definition days_in_month (y m : Z) : Z :=
  if m =? 2 then (if is_leap y then 29 else 28)
  else if (m =? 4) || (m =? 6) || (m =? 9) || (m =? 11) then 30
  else 31.

Definition digit (c : ascii) : option Z :=
  let n := Z.of_nat (nat_of_ascii c) in
  if (48 <=? n) && (n <=? 57) then Some (n - 48) else None.

Definition is_dash (c : ascii) : bool := Ascii.eqb c "-"%char.

(** The [%m] group, [1[0-2]|0[1-9]|[1-9]], on the characters it captured. *)
Definition month_of (cs : list ascii) : option Z :=
  match map digit cs with
  | [Some a; Some b] =>
      let m := 10 * a + b in
      if (1 <=? m) && (m <=? 12) then Some m else None
  | [Some a] => if 1 <=? a then Some a else None
  | _ => None
  end.

(** The [%d] group, [3[0-1]|[1-2]\d|0[1-9]|[1-9]| [1-9]], on the characters
    left after the second dash: the whole rest must be consumed. *)
Definition day_of (cs : list ascii) : option Z :=
  match cs with
  | [a; b] =>
      match digit a, digit b with
      | Some x, Some y =>
          let d := 10 * x + y in
          if (1 <=? d) && (d <=? 31) then Some d else None
      | None, Some y =>
          if Ascii.eqb a " "%char && (1 <=? y) then Some y else None
      | _, _ => None
      end
  | [a] =>
      match digit a with
      | Some x => if 1 <=? x then Some x else None
      | None => None
      end
  | _ => None
  end.

(** The date part after [YYYY-]: a month group, a dash, a day group. *)
Definition month_day_of (cs : list ascii) : option (Z * Z) :=
  match cs with
  | a :: b :: rest =>
      if is_dash b
      then match month_of [a], day_of rest with
           | Some m, Some d => Some (m, d)
           | _, _ => None
           end
      else match rest with
           | c :: rest' =>
               if is_dash c
               then match month_of [a; b], day_of rest' with
                    | Some m, Some d => Some (m, d)
                    | _, _ => None
                    end
               else None
           | [] => None
           end
  | _ => None
  end.

(** [datetime.strptime(s, "%Y-%m-%d")]: [None] stands for the [ValueError]
    raised when the text does not match, when characters remain, or when the
    fields name no calendar day.  The digits recognised are the ASCII ones.
    CPython's [\d], in the year and in the second digit of the day, also
    takes the decimal digits of other scripts, so an answer [None] is
    CPython's ValueError for a text of ASCII characters only; for a text with
    other characters the proofs rely on no answer of this function. *)
Definition strptime (s : string) : option datetime :=
  match list_ascii_of_string s with
  | y1 :: y2 :: y3 :: y4 :: dash :: rest =>
      match digit y1, digit y2, digit y3, digit y4 with
      | Some a, Some b, Some c, Some d =>
          if is_dash dash
          then match month_day_of rest with
               | Some (m, dd) =>
                   let y := 1000 * a + 100 * b + 10 * c + d in
                   if (1 <=? y) && (dd <=? days_in_month y m)
                   then Some (mk_datetime y m dd 0 0 0 0)
                   else None
               | None => None
               end
          else None
      | _, _, _, _ => None
      end
  | _ => None
  end.

Definition strptime_exn (s : string) : outcome datetime :=
  match strptime s with
  | Some d => Returns d
  | None => Raises ValueError
  end.

(** ** The pipeline: fetch_eol_data, parse_sbom, check_eol_dates *)

Inductive http_result : Type :=
| HttpFailure                                   (* the request raised aiohttp.ClientError *)
| HttpResponse (status : Z) (body : outcome json). (* status and what response.json() does *)

Inductive level : Type := INFO | WARNING | ERROR.

Definition is_list (v : json) : bool :=
  match v with JArr _ => true | _ => false end.

(** The dict appended to [upgrades] (tools.py 111-117). *)
Definition recommendation (name version eol_date cycle eol : json) : json :=
  JObj [("name", name); ("current_version", version); ("eol_date", eol_date);
        ("suggested_version", cycle); ("suggested_eol_date", eol)].

(** [version.split('.')[0]]: only a str has [split]. *)
Definition major_of (version : json) : outcome string :=
  match version with
  | JStr s => Returns (before_dot s)
  | _ => Raises AttributeError
  end.

(** [next((item for item in eol_data if item["cycle"] == major_version), None)]:
    the generator stops at the first match and raises where an item before it
    cannot be subscripted. *)
Fixpoint find_cycle (items : list json) (major_version : string) : outcome json :=
  match items with
  | [] => Returns JNull
  | item :: rest =>
      c <- py_getitem item "cycle" ;;
      if eq_str c major_version then Returns item else find_cycle rest major_version
  end.

(** [version_data.get("eol")] *)
Definition get_eol (version_data : json) : outcome json :=
  match version_data with
  | JObj fields => Returns (py_get fields "eol")
  | _ => Raises AttributeError
  end.

(** The [key=] lambda of line 110. *)
Definition eol_key (v : json) : outcome datetime :=
  e <- py_getitem v "eol" ;;
  match e with
  | JStr s => strptime_exn s
  | _ => Returns datetime_max
  end.

(** [max(iterable, key=...)]: a later item replaces the running maximum only
    when its key is strictly greater. *)
Fixpoint max_loop (items : list json) (best : json) (best_key : datetime)
  : outcome json :=
  match items with
  | [] => Returns best
  | v :: rest =>
      k <- eol_key v ;;
      if dt_ltb best_key k then max_loop rest v k else max_loop rest best best_key
  end.

Definition py_max (items : list json) : outcome json :=
  match items with
  | [] => Raises ValueError
  | v :: rest => k <- eol_key v ;; max_loop rest v k
  end.

Section Engine.

(** [json_loads s] is what [json.loads] does on [s]: it returns the decoded
    value, raises JSONDecodeError on text that is no JSON, or raises something
    else (RecursionError on nesting beyond the recursion limit, ValueError on
    an integer literal beyond the digit limit). *)
Variable json_loads : string -> outcome json.
(** [str(v)] of a value that is not a str, as an f-string formats it. *)
Variable py_repr : json -> string.
(** The reply to the GET issued while the component at position [i] is
    processed, and the clock reading taken there. *)
Variable http_get : nat -> string -> http_result.
Variable now : nat -> datetime.

Definition url_of (framework : json) : string :=
  "https://endoflife.date/api/"
  ++ (match framework with JStr s => s | v => py_repr v end)
  ++ ".json".

(** tools.py 53-68 *)
Definition fetch_eol_data (i : nat) (framework : json) : outcome json :=
  match http_get i (url_of framework) with
  | HttpFailure => Returns JNull
  | HttpResponse status body =>
      if status =? 200
      then match body with
           | Returns data => Returns data
           | Raises ClientError => Returns JNull
           | Raises e => Raises e
           end
      else Returns JNull
  end.

(** tools.py 70-85 *)
Definition parse_sbom (sbom : string) : outcome json * list level :=
  match json_loads sbom with
  | Returns (JObj fields) =>
      let frameworks :=
        match dict_get "components" fields with
        | Some v => v
        | None => JArr []
        end in
      if negb (is_list frameworks)
      then (Returns JNull, [INFO; WARNING])
      else (Returns frameworks, [INFO; INFO])
  | Returns _ => (Raises AttributeError, [INFO])
  | Raises JSONDecodeError => (Returns JNull, [INFO; ERROR])
  | Raises e => (Raises e, [INFO])
  end.

(** tools.py 104-124: the decision once [version_data] is known; the result
    is what the iteration appends to [upgrades]. *)
Definition judge (i : nat) (name version eol_data version_data : json)
  : outcome (list json) :=
  if truthy version_data
  then
    eol_date_str <- get_eol version_data ;;
    match eol_date_str with
    | JStr s =>
        eol_date <- strptime_exn s ;;
        if dt_ltb eol_date (now i)
        then
          items <- py_iter eol_data ;;
          latest_version <- py_max items ;;
          cycle <- py_getitem latest_version "cycle" ;;
          eol <- py_getitem latest_version "eol" ;;
          Returns [recommendation name version eol_date_str cycle eol]
        else Returns []
    | _ => Returns []
    end
  else Returns [].

(** tools.py 97-126: one iteration of the loop. *)
Definition check_framework (i : nat) (framework : json) : outcome (list json) :=
  name <- py_getitem framework "name" ;;
  version <- py_getitem framework "version" ;;
  major_version <- major_of version ;;
  eol_data <- fetch_eol_data i name ;;
  if truthy eol_data
  then
    items <- py_iter eol_data ;;
    version_data <- find_cycle items major_version ;;
    judge i name version eol_data version_data
  else Returns [].

(** tools.py 97-103 alone: the entry that the iteration matches for a
    component; [None] when the feed gave nothing or no cycle matches. *)
Definition version_data_of (i : nat) (framework : json) : outcome json :=
  name <- py_getitem framework "name" ;;
  version <- py_getitem framework "version" ;;
  major_version <- major_of version ;;
  eol_data <- fetch_eol_data i name ;;
  if truthy eol_data
  then items <- py_iter eol_data ;; find_cycle items major_version
  else Returns JNull.

Fixpoint check_loop (i : nat) (frameworks upgrades : list json)
  : outcome (list json) :=
  match frameworks with
  | [] => Returns upgrades
  | framework :: rest =>
      added <- check_framework i framework ;;
      check_loop (S i) rest (upgrades ++ added)
  end.

(** tools.py 87-128 *)
Definition check_eol_dates (frameworks : json) : outcome json :=
  if negb (truthy frameworks)
  then Returns JNull
  else
    items <- py_iter frameworks ;;
    upgrades <- check_loop 0 items [] ;;
    Returns (JArr upgrades).

(** Past due: the matched cycle's [eol] is a date that parses and lies
    strictly before the clock reading. *)
Definition past_due (i : nat) (framework : json) : Prop :=
  exists fields s d,
    version_data_of i framework = Returns (JObj fields)
    /\ py_get fields "eol" = JStr s
    /\ strptime s = Some d
    /\ dt_ltb d (now i) = true.

End Engine.

(** ** Vocabulary of the statements *)

(** [k <= K] on datetimes. *)
Definition dt_le (k K : datetime) : Prop := dt_ltb K k = false.

(** Entry [n] of [items] is [winner], its key is [K], no entry has a larger
    key and every entry before it has a strictly smaller one. *)
Definition first_max (items : list json) (n : nat) (winner : json) (K : datetime)
  : Prop :=
  nth_error items n = Some winner
  /\ eol_key winner = Returns K
  /\ (forall m v k, nth_error items m = Some v -> eol_key v = Returns k -> dt_le k K)
  /\ (forall m v k, (m < n)%nat -> nth_error items m = Some v ->
                    eol_key v = Returns k -> dt_ltb k K = true).

(** Every character of the text is an ASCII character. *)
Definition ascii_text (s : string) : bool :=
  forallb (fun c => (nat_of_ascii c <? 128)%nat) (list_ascii_of_string s).

(** The key lambda answers on [v]. *)
Definition keyed (v : json) : Prop := exists k, eol_key v = Returns k.

(** ** load_and_check_sbom (tools.py 130-161) *)

(** What opening and reading the SBOM file does. *)
Inductive file_result : Type :=
| FileNotFound                  (* FileNotFoundError *)
| ReadFailure (e : exn)         (* any other exception of open or read *)
| FileText (text : string).

(** [try: body except Exception: handler]; every class of [exn] derives
    from [Exception]. *)
Definition try_except {A : Type} (body : outcome A) (handler : exn -> outcome A)
  : outcome A :=
  match body with
  | Returns a => Returns a
  | Raises e => handler e
  end.

Section Loader.

(** The value of the environment variable SBOM_PATH, the path of
    [sbom.json] beside the module, and the file system. *)
Variable getenv_sbom_path : option string.
Variable default_path : string.
Variable read_text : string -> file_result.
Variable json_loads : string -> outcome json.
Variable py_repr : json -> string.
Variable http_get : nat -> string -> http_result.
Variable now : nat -> datetime.

Definition sbom_path : string :=
  match getenv_sbom_path with
  | Some path => path
  | None => default_path
  end.

Definition load_and_check_sbom : outcome json :=
  match read_text sbom_path with
  | FileNotFound => Returns JNull
  | ReadFailure _ => Returns JNull
  | FileText sbom =>
      try_except
        (frameworks <- fst (parse_sbom json_loads sbom) ;;
         if truthy frameworks
         then
           upgrades <- check_eol_dates py_repr http_get now frameworks ;;
           Returns frameworks
         else Returns JNull)
        (fun _ => Returns JNull)
  end.

End Loader.

(** ** main (main.py 13-53) *)

Inductive main_event : Type :=
| ModelCall (k : nat)
| LoadSbom
| CheckEol.

Section Main.

(** [call_model k] is what the call numbered [k] of [call_model] does; the
    function belongs to react_agent.graph and is taken as given.  The state
    and the messages that [main] builds and hands to it are left out. *)
Variable call_model : nat -> outcome json.
Variable getenv_sbom_path : option string.
Variable default_path : string.
Variable read_text : string -> file_result.
Variable json_loads : string -> outcome json.
Variable py_repr : json -> string.
(** The feed and the clock while the SBOM is loaded, and again when [main]
    checks the EOL dates itself. *)
Variable http_get : nat -> string -> http_result.
Variable now : nat -> datetime.
Variable http_get_again : nat -> string -> http_result.
Variable now_again : nat -> datetime.

(** main.py 43-53 *)
Definition execute_additional_steps (tr : list main_event)
  : outcome json * list main_event :=
  match call_model 1 with
  | Raises e => (Raises e, tr ++ [ModelCall 1])
  | Returns _ =>
      match call_model 2 with
      | Raises e => (Raises e, tr ++ [ModelCall 1; ModelCall 2])
      | Returns _ => (Returns JNull, tr ++ [ModelCall 1; ModelCall 2])
      end
  end.

(** main.py 13-41 *)
Definition main : outcome json * list main_event :=
  match call_model 0 with
  | Raises e => (Raises e, [ModelCall 0])
  | Returns _ =>
      match load_and_check_sbom getenv_sbom_path default_path read_text
                                json_loads py_repr http_get now with
      | Raises e => (Raises e, [ModelCall 0; LoadSbom])
      | Returns frameworks =>
          if negb (truthy frameworks)
          then (Returns JNull, [ModelCall 0; LoadSbom])
          else
            match check_eol_dates py_repr http_get_again now_again frameworks with
            | Raises e => (Raises e, [ModelCall 0; LoadSbom; CheckEol])
            | Returns upgrades =>
                execute_additional_steps [ModelCall 0; LoadSbom; CheckEol]
            end
      end
  end.

End Main.

(** ** search as a whole (tools.py 25-51) *)

(** [setup] is what lines 34-35 do before the loop, outside its [try]:
    reading the configuration and constructing the search tool.  An exception
    there leaves [search] before any upstream call. *)
Definition search_from_config (setup : outcome unit) (ainvoke : nat -> outcome json)
  : outcome json * list Retry.event :=
  match setup with
  | Raises e => (Raises e, [])
  | Returns _ => Retry.search ainvoke
  end.

(** ** More vocabulary *)

(** What one overloaded attempt leaves in the trace. *)
Definition retry_events (attempt : nat) : list Retry.event :=
  [Retry.Call attempt; Retry.Sleep (2 ^ Z.of_nat attempt)].

(** The attempt ends the loop: it returned, or raised what is not retried. *)
Definition decisive (o : outcome json) : Prop :=
  match o with
  | Returns _ => True
  | Raises e => Retry.overloaded e = false
  end.

Definition retried (o : outcome json) : Prop :=
  exists e, o = Raises e /\ Retry.overloaded e = true.

(** The entry carries a ["cycle"] that is not [major]. *)
Definition other_cycle (major : string) (item : json) : Prop :=
  exists cyc, py_getitem item "cycle" = Returns cyc /\ eq_str cyc major = false.

(** The key of line 110 cannot be computed for [v], and [e] is what its
    computation raises: [v] is no dict, or has no ["eol"], or its ["eol"] is
    a text of ASCII characters that is no date. *)
Definition key_fails (v : json) (e : exn) : Prop :=
  ((forall fields, v <> JObj fields) /\ e = TypeError)
  \/ (exists fields,
        v = JObj fields /\ dict_get "eol" fields = None /\ e = KeyError "eol")
  \/ (exists fields s,
        v = JObj fields /\ dict_get "eol" fields = Some (JStr s)
        /\ ascii_text s = true /\ strptime s = None /\ e = ValueError).

Fixpoint has_dot (s : string) : bool :=
  match s with
  | EmptyString => false
  | String c rest => Ascii.eqb c "."%char || has_dot rest
  end.

(** ** Concrete inputs *)

Module Sample.

Definition quote : string := String "034"%char EmptyString.

(** The text [{"components": 5}]. *)
Definition sbom_components_5 : string :=
  "{" ++ quote ++ "components" ++ quote ++ ": 5}".

(** The text [{"components": [{"name": "django", "version": "1.0.0"}, 7]}]. *)
Definition sbom_two : string :=
  "{" ++ quote ++ "components" ++ quote ++ ": [{" ++ quote ++ "name" ++ quote
  ++ ": " ++ quote ++ "django" ++ quote ++ ", " ++ quote ++ "version" ++ quote
  ++ ": " ++ quote ++ "1.0.0" ++ quote ++ "}, 7]}".

Definition django : json :=
  JObj [("name", JStr "django"); ("version", JStr "1.0.0")].

Fixpoint ones (n : nat) : string :=
  match n with
  | O => EmptyString
  | S m => String "1"%char (ones m)
  end.

(** The text [{"components": [11...1]}] whose one list element is an integer
    literal of 4301 digits: valid JSON that [json.loads] refuses with a plain
    ValueError, 4300 digits being the default limit of the conversion. *)
Definition sbom_long_integer : string :=
  "{" ++ quote ++ "components" ++ quote ++ ": [" ++ ones 4301 ++ "]}".

(** [json.loads] on the five texts used below; every other text is taken
    as undecodable. *)
Definition loads (s : string) : outcome json :=
  if String.eqb s sbom_components_5 then Returns (JObj [("components", JInt 5)])
  else if String.eqb s sbom_two then Returns (JObj [("components", JArr [django; JInt 7])])
  else if String.eqb s "{}" then Returns (JObj [])
  else if String.eqb s "[]" then Returns (JArr [])
  else if String.eqb s sbom_long_integer then Raises ValueError
  else Raises JSONDecodeError.

(** The release-cycle table of the spec's worked example. *)
Definition table : json :=
  JArr [JObj [("cycle", JStr "1"); ("eol", JStr "2023-12-31")];
        JObj [("cycle", JStr "2"); ("eol", JStr "2025-12-31")]].

(** A table whose matched entry carries a text that is no date. *)
Definition table_tbd : json :=
  JArr [JObj [("cycle", JStr "1"); ("eol", JStr "TBD")]].

(** A table whose matched entry is supported without end. *)
Definition table_ongoing : json :=
  JArr [JObj [("cycle", JStr "1"); ("eol", JBool false)]].

(** A past-due cycle next to one whose [eol] is a text that is no date. *)
Definition table_late_tbd : json :=
  JArr [JObj [("cycle", JStr "1"); ("eol", JStr "2023-12-31")];
        JObj [("cycle", JStr "2"); ("eol", JStr "TBD")]].

(** Two ongoing cycles after a dated one. *)
Definition table_two_ongoing : json :=
  JArr [JObj [("cycle", JStr "1"); ("eol", JStr "2023-12-31")];
        JObj [("cycle", JStr "2"); ("eol", JBool false)];
        JObj [("cycle", JStr "3"); ("eol", JBool false)]].

Definition flask : json :=
  JObj [("name", JStr "flask"); ("version", JStr "1.2")].

Definition rails : json :=
  JObj [("name", JStr "rails"); ("version", JStr "1.0")].

Definition node : json :=
  JObj [("name", JStr "node"); ("version", JStr "1.4.2")].

Definition vue : json :=
  JObj [("name", JStr "vue"); ("version", JStr "1.9")].

(** A component record without a version. *)
Definition unversioned : json := JObj [("name", JStr "flask")].

Definition repr (v : json) : string := "".

(** A feed that knows five frameworks and answers 404 for the rest. *)
Definition feed (i : nat) (url : string) : http_result :=
  if String.eqb url "https://endoflife.date/api/django.json"
  then HttpResponse 200 (Returns table)
  else if String.eqb url "https://endoflife.date/api/flask.json"
  then HttpResponse 200 (Returns table_ongoing)
  else if String.eqb url "https://endoflife.date/api/rails.json"
  then HttpResponse 200 (Returns table_tbd)
  else if String.eqb url "https://endoflife.date/api/node.json"
  then HttpResponse 200 (Returns table_late_tbd)
  else if String.eqb url "https://endoflife.date/api/vue.json"
  then HttpResponse 200 (Returns table_two_ongoing)
  else HttpResponse 404 (Raises ClientError).

Definition django_upgrade : json :=
  recommendation (JStr "django") (JStr "1.0.0") (JStr "2023-12-31")
                 (JStr "2") (JStr "2025-12-31").

Definition clock (i : nat) : datetime := mk_datetime 2024 6 1 12 0 0 0.

Definition flaky_upstream (k : nat) : outcome json :=
  if (k <? 4)%nat
  then Raises (APIStatusError "{'type': 'overloaded_error'}")
  else Returns (JArr [JObj [("url", JStr "https://example.org")]]).

End Sample.

(** The engine on the sample feed and clock. *)
Module OnSample.

Definition run (frameworks : list json) : outcome json :=
  check_eol_dates Sample.repr Sample.feed Sample.clock (JArr frameworks).

Definition due (i : nat) (c : json) : Prop :=
  past_due Sample.repr Sample.feed Sample.clock i c.

Definition matched (i : nat) (c : json) : outcome json :=
  version_data_of Sample.repr Sample.feed i c.

End OnSample.

(** ** More concrete inputs *)

Module More.

(** Two overloaded replies, then an error of another class. *)
Definition third_time_fatal (k : nat) : outcome json :=
  if (k <? 2)%nat
  then Raises (APIStatusError "overloaded_error")
  else Raises (OtherError "connection reset").

(** django on a cycle the table does not list. *)
Definition django3 : json :=
  JObj [("name", JStr "django"); ("version", JStr "3.1")].

(** A framework the feed answers 404 for. *)
Definition express : json :=
  JObj [("name", JStr "express"); ("version", JStr "4.18.2")].

(** A record whose version is a number. *)
Definition numbered : json :=
  JObj [("name", JStr "django"); ("version", JInt 1)].

Definition ghost : json :=
  JObj [("name", JStr "ghost"); ("version", JStr "1.0")].

Definition not_found_body : json :=
  JObj [("message", JStr "Product not found")].

Definition lts : json :=
  JObj [("name", JStr "lts"); ("version", JStr "1.8")].

(** A past-due cycle followed by an entry without an end date. *)
Definition table_no_eol : json :=
  JArr [JObj [("cycle", JStr "1"); ("eol", JStr "2023-12-31")];
        JObj [("cycle", JStr "2")]].

(** The sample feed, and a 200 reply carrying a JSON object for ghost. *)
Definition feed (i : nat) (url : string) : http_result :=
  if String.eqb url "https://endoflife.date/api/ghost.json"
  then HttpResponse 200 (Returns not_found_body)
  else if String.eqb url "https://endoflife.date/api/lts.json"
  then HttpResponse 200 (Returns table_no_eol)
  else Sample.feed i url.

(** The clock at the first instant of 2023-12-31. *)
Definition midnight (i : nat) : datetime := mk_datetime 2023 12 31 0 0 0 0.

Definition run (frameworks : list json) : outcome json :=
  check_eol_dates Sample.repr feed Sample.clock (JArr frameworks).

(** The text [{"components": [{"name": "django", "version": "1.0.0"}]}]. *)
Definition sbom_one : string :=
  "{" ++ Sample.quote ++ "components" ++ Sample.quote ++ ": [{" ++ Sample.quote
  ++ "name" ++ Sample.quote ++ ": " ++ Sample.quote ++ "django" ++ Sample.quote
  ++ ", " ++ Sample.quote ++ "version" ++ Sample.quote ++ ": " ++ Sample.quote
  ++ "1.0.0" ++ Sample.quote ++ "}]}".

(** The text [{"components": [{"name": "rails", "version": "1.0"}]}]. *)
Definition sbom_rails : string :=
  "{" ++ Sample.quote ++ "components" ++ Sample.quote ++ ": [{" ++ Sample.quote
  ++ "name" ++ Sample.quote ++ ": " ++ Sample.quote ++ "rails" ++ Sample.quote
  ++ ", " ++ Sample.quote ++ "version" ++ Sample.quote ++ ": " ++ Sample.quote
  ++ "1.0" ++ Sample.quote ++ "}]}".

Definition loads (s : string) : outcome json :=
  if String.eqb s sbom_one then Returns (JObj [("components", JArr [Sample.django])])
  else if String.eqb s sbom_rails then Returns (JObj [("components", JArr [Sample.rails])])
  else Sample.loads s.

(** A file system with three SBOM files. *)
Definition disk (path : string) : file_result :=
  if String.eqb path "/srv/app/sbom.json" then FileText sbom_one
  else if String.eqb path "/srv/rails/sbom.json" then FileText sbom_rails
  else if String.eqb path "/srv/empty/sbom.json" then FileText "{}"
  else FileNotFound.

Definition load (env : option string) : outcome json :=
  load_and_check_sbom env "/srv/app/sbom.json" disk loads
                      Sample.repr Sample.feed Sample.clock.

(** A model that always answers. *)
Definition answering (k : nat) : outcome json := Returns (JStr "ok").

(** A feed that has turned bad for django by the second check. *)
Definition feed_later (i : nat) (url : string) : http_result :=
  if String.eqb url "https://endoflife.date/api/django.json"
  then HttpResponse 200 (Returns Sample.table_tbd)
  else Sample.feed i url.

Definition run_main (env : option string) (again : nat -> string -> http_result)
  : outcome json * list main_event :=
  main answering env "/srv/app/sbom.json" disk loads
       Sample.repr Sample.feed Sample.clock again Sample.clock.

End More.

(** * Properties *)

(** ** Order on datetimes *)

Lemma lex_compare_refl (a : list Z) : lex_compare a a = Eq.
Proof.
  induction a as [|x a IH]; simpl; [reflexivity|].
  rewrite Z.compare_refl. exact IH.
Qed.

Lemma lex_compare_eq (a : list Z) : forall b, lex_compare a b = Eq -> a = b.
Proof.
  induction a as [|x a IH]; intros [|y b] H; simpl in H; try discriminate.
  - reflexivity.
  - destruct (x ?= y) eqn:Hxy; try discriminate.
    apply Z.compare_eq in Hxy. subst y. f_equal. apply IH. exact H.
Qed.

Lemma lex_compare_antisym (a : list Z) :
  forall b, lex_compare b a = CompOpp (lex_compare a b).
Proof.
  induction a as [|x a IH]; intros [|y b]; simpl; try reflexivity.
  rewrite (Z.compare_antisym x y).
  destruct (x ?= y); simpl; [apply IH | reflexivity | reflexivity].
Qed.

Lemma lex_compare_trans (a : list Z) :
  forall b c, lex_compare a b = Lt -> lex_compare b c = Lt -> lex_compare a c = Lt.
Proof.
  induction a as [|x a IH]; intros [|y b] [|z c] Hab Hbc; simpl in *;
    try discriminate; try reflexivity.
  destruct (x ?= y) eqn:Hxy; try discriminate.
  - apply Z.compare_eq in Hxy. subst y.
    destruct (x ?= z); try discriminate; [eapply IH; eassumption | reflexivity].
  - destruct (y ?= z) eqn:Hyz; try discriminate.
    + apply Z.compare_eq in Hyz. subst z. rewrite Hxy. reflexivity.
    + assert (Hxz : (x ?= z) = Lt).
      { rewrite Z.compare_lt_iff in Hxy, Hyz |- *. lia. }
      rewrite Hxz. reflexivity.
Qed.

Lemma dt_ltb_irrefl (a : datetime) : dt_ltb a a = false.
Proof. unfold dt_ltb. rewrite lex_compare_refl. reflexivity. Qed.

Lemma dt_ltb_trans (a b c : datetime) :
  dt_ltb a b = true -> dt_ltb b c = true -> dt_ltb a c = true.
Proof.
  unfold dt_ltb. intros Hab Hbc.
  destruct (lex_compare (dt_fields a) (dt_fields b)) eqn:E1; try discriminate.
  destruct (lex_compare (dt_fields b) (dt_fields c)) eqn:E2; try discriminate.
  rewrite (lex_compare_trans _ _ _ E1 E2). reflexivity.
Qed.

Lemma dt_le_refl (a : datetime) : dt_le a a.
Proof. apply dt_ltb_irrefl. Qed.

(** [a <= b < c] gives [a < c]. *)
Lemma dt_le_lt_trans (a b c : datetime) :
  dt_le a b -> dt_ltb b c = true -> dt_ltb a c = true.
Proof.
  unfold dt_le, dt_ltb. intros Hab Hbc.
  destruct (lex_compare (dt_fields b) (dt_fields c)) eqn:E2; try discriminate.
  rewrite (lex_compare_antisym (dt_fields a) (dt_fields b)) in Hab.
  destruct (lex_compare (dt_fields a) (dt_fields b)) eqn:E1; simpl in Hab;
    try discriminate.
  - apply lex_compare_eq in E1. rewrite E1, E2. reflexivity.
  - rewrite (lex_compare_trans _ _ _ E1 E2). reflexivity.
Qed.

Lemma dt_lt_le (a b : datetime) : dt_ltb a b = true -> dt_le a b.
Proof.
  unfold dt_le, dt_ltb. intros Hab.
  rewrite (lex_compare_antisym (dt_fields a) (dt_fields b)).
  destruct (lex_compare (dt_fields a) (dt_fields b)); try discriminate.
  reflexivity.
Qed.

(** ** max with a key *)

Lemma max_loop_first_max (rest : list json) :
  forall (seen : list json) (n : nat) (best : json) (K : datetime),
    first_max seen n best K ->
    Forall keyed rest ->
    exists n' winner K',
      max_loop rest best K = Returns winner
      /\ first_max (seen ++ rest) n' winner K'.
Proof.
  induction rest as [|v rest IH]; intros seen n best K Hfm Hkeyed.
  - exists n, best, K. rewrite app_nil_r. split; [reflexivity | exact Hfm].
  - inversion Hkeyed as [|v' rest' [k Hk] Hrest]; subst.
    destruct Hfm as (Hn & HK & Hall & Hbefore).
    assert (Hlen : (n < List.length seen)%nat)
      by (apply nth_error_Some; congruence).
    cbn [max_loop]. rewrite Hk. cbn [bind].
    replace (seen ++ v :: rest) with ((seen ++ [v]) ++ rest)
      by (rewrite <- app_assoc; reflexivity).
    destruct (dt_ltb K k) eqn:Hlt.
    + apply (IH (seen ++ [v]) (List.length seen) v k); [|exact Hrest].
      repeat split.
      * rewrite nth_error_app2 by lia. rewrite Nat.sub_diag. reflexivity.
      * exact Hk.
      * intros m w kw Hm Hkw.
        destruct (Nat.lt_ge_cases m (List.length seen)) as [Hin|Hout].
        -- rewrite nth_error_app1 in Hm by exact Hin.
           apply dt_lt_le. eapply dt_le_lt_trans; [eapply Hall; eassumption | exact Hlt].
        -- rewrite nth_error_app2 in Hm by exact Hout.
           destruct (m - List.length seen)%nat as [|j]; simpl in Hm.
           ++ injection Hm as <-. rewrite Hk in Hkw. injection Hkw as <-.
              apply dt_le_refl.
           ++ destruct j; discriminate.
      * intros m w kw Hm Hw Hkw.
        rewrite nth_error_app1 in Hw by exact Hm.
        eapply dt_le_lt_trans; [eapply Hall; eassumption | exact Hlt].
    + apply (IH (seen ++ [v]) n best K); [|exact Hrest].
      repeat split.
      * rewrite nth_error_app1 by exact Hlen. exact Hn.
      * exact HK.
      * intros m w kw Hm Hkw.
        destruct (Nat.lt_ge_cases m (List.length seen)) as [Hin|Hout].
        -- rewrite nth_error_app1 in Hm by exact Hin. eapply Hall; eassumption.
        -- rewrite nth_error_app2 in Hm by exact Hout.
           destruct (m - List.length seen)%nat as [|j]; simpl in Hm.
           ++ injection Hm as <-. rewrite Hk in Hkw. injection Hkw as <-.
              exact Hlt.
           ++ destruct j; discriminate.
      * intros m w kw Hm Hw Hkw.
        rewrite nth_error_app1 in Hw by lia.
        eapply Hbefore; eassumption.
Qed.

Lemma py_max_first_max (items : list json) :
  items <> [] ->
  Forall keyed items ->
  exists n winner K,
    py_max items = Returns winner /\ first_max items n winner K.
Proof.
  destruct items as [|v rest]; [congruence|]. intros _ Hkeyed.
  inversion Hkeyed as [|v' rest' [k Hk] Hrest]; subst.
  cbn [py_max]. rewrite Hk. cbn [bind].
  apply (max_loop_first_max rest [v] 0%nat v k); [|exact Hrest].
  repeat split.
  - exact Hk.
  - intros m w kw Hm Hkw. destruct m as [|m]; simpl in Hm.
    + injection Hm as <-. rewrite Hk in Hkw. injection Hkw as <-. apply dt_le_refl.
    + destruct m; discriminate.
  - intros m w kw Hm. lia.
Qed.

(** ** What strptime can return *)

Lemma some_eq {A : Type} (a b : A) : Some a = Some b -> a = b.
Proof. congruence. Qed.

Lemma digit_range (c : ascii) (n : Z) : digit c = Some n -> 0 <= n <= 9.
Proof.
  unfold digit.
  destruct ((48 <=? Z.of_nat (nat_of_ascii c)) && (Z.of_nat (nat_of_ascii c) <=? 57))
    eqn:Hc; [|discriminate].
  apply andb_prop in Hc. destruct Hc as [Hlo Hhi].
  apply Z.leb_le in Hlo, Hhi. intros Heq. apply some_eq in Heq. lia.
Qed.

Lemma month_of_range (cs : list ascii) (m : Z) : month_of cs = Some m -> 1 <= m <= 12.
Proof.
  unfold month_of.
  destruct cs as [|a [|b [|c cs]]]; cbn [map]; try discriminate.
  - destruct (digit a) as [x|] eqn:Ha; [|discriminate].
    apply digit_range in Ha.
    destruct (1 <=? x) eqn:Hx; [|discriminate].
    apply Z.leb_le in Hx. intros Heq. apply some_eq in Heq. lia.
  - destruct (digit a) as [x|]; [|discriminate].
    destruct (digit b) as [y|]; [|discriminate].
    destruct ((1 <=? 10 * x + y) && (10 * x + y <=? 12)) eqn:Hm; [|discriminate].
    apply andb_prop in Hm. destruct Hm as [Hlo Hhi].
    apply Z.leb_le in Hlo, Hhi. intros Heq. apply some_eq in Heq. lia.
  - destruct (digit a); [|discriminate].
    destruct (digit b); [|discriminate].
    destruct (digit c); discriminate.
Qed.

Lemma day_of_range (cs : list ascii) (d : Z) : day_of cs = Some d -> 1 <= d <= 31.
Proof.
  unfold day_of.
  destruct cs as [|a [|b [|c cs]]]; try discriminate.
  - destruct (digit a) as [x|] eqn:Ha; [|discriminate].
    apply digit_range in Ha.
    destruct (1 <=? x) eqn:Hx; [|discriminate].
    apply Z.leb_le in Hx. intros Heq. apply some_eq in Heq. lia.
  - destruct (digit a) as [x|] eqn:Ha; destruct (digit b) as [y|] eqn:Hb;
      try discriminate.
    + destruct ((1 <=? 10 * x + y) && (10 * x + y <=? 31)) eqn:Hd; [|discriminate].
      apply andb_prop in Hd. destruct Hd as [Hlo Hhi].
      apply Z.leb_le in Hlo, Hhi. intros Heq. apply some_eq in Heq. lia.
    + apply digit_range in Hb.
      destruct (Ascii.eqb a " " && (1 <=? y)) eqn:Hd; [|discriminate].
      apply andb_prop in Hd. destruct Hd as [_ Hlo].
      apply Z.leb_le in Hlo. intros Heq. apply some_eq in Heq. lia.
Qed.

Lemma month_day_of_range (cs : list ascii) (m d : Z) :
  month_day_of cs = Some (m, d) -> 1 <= m <= 12 /\ 1 <= d <= 31.
Proof.
  unfold month_day_of.
  destruct cs as [|a [|b rest]]; try discriminate.
  destruct (is_dash b).
  - destruct (month_of [a]) as [m'|] eqn:Hm; [|discriminate].
    destruct (day_of rest) as [d'|] eqn:Hd; [|discriminate].
    intros Heq. apply some_eq in Heq.
    assert (m' = m /\ d' = d) as [<- <-] by (split; congruence).
    split; [eapply month_of_range | eapply day_of_range]; eassumption.
  - destruct rest as [|c rest']; [discriminate|].
    destruct (is_dash c); [|discriminate].
    destruct (month_of [a; b]) as [m'|] eqn:Hm; [|discriminate].
    destruct (day_of rest') as [d'|] eqn:Hd; [|discriminate].
    intros Heq. apply some_eq in Heq.
    assert (m' = m /\ d' = d) as [<- <-] by (split; congruence).
    split; [eapply month_of_range | eapply day_of_range]; eassumption.
Qed.

(** A parsed date is a midnight of the years 1 to 9999. *)
Lemma strptime_range (s : string) (d : datetime) :
  strptime s = Some d ->
  1 <= year d <= 9999 /\ 1 <= month d <= 12 /\ 1 <= day d <= 31
  /\ hour d = 0 /\ minute d = 0 /\ second d = 0 /\ microsecond d = 0.
Proof.
  unfold strptime.
  destruct (list_ascii_of_string s) as [|y1 [|y2 [|y3 [|y4 [|dash rest]]]]];
    try discriminate.
  destruct (digit y1) as [a|] eqn:H1; [|discriminate].
  destruct (digit y2) as [b|] eqn:H2; [|discriminate].
  destruct (digit y3) as [c|] eqn:H3; [|discriminate].
  destruct (digit y4) as [e|] eqn:H4; [|discriminate].
  apply digit_range in H1, H2, H3, H4.
  destruct (is_dash dash); [|discriminate].
  destruct (month_day_of rest) as [[m dd]|] eqn:Hmd; [|discriminate].
  apply month_day_of_range in Hmd.
  destruct ((1 <=? 1000 * a + 100 * b + 10 * c + e)
            && (dd <=? days_in_month (1000 * a + 100 * b + 10 * c + e) m)) eqn:Hv;
    [|discriminate].
  apply andb_prop in Hv. destruct Hv as [Hy _]. apply Z.leb_le in Hy.
  intros Heq. apply some_eq in Heq. subst d.
  cbn [year month day hour minute second microsecond]. lia.
Qed.

(** [datetime.max] lies after every date that parses. *)
Lemma strptime_before_max (s : string) (d : datetime) :
  strptime s = Some d -> dt_ltb d datetime_max = true.
Proof.
  intros Hd. apply strptime_range in Hd.
  destruct d as [y m dd h mi sec us]. simpl in Hd.
  destruct Hd as (Hy & Hm & Hdd & -> & -> & -> & ->).
  unfold dt_ltb, dt_fields, datetime_max. cbn [lex_compare year month day hour minute second microsecond].
  destruct (Z.compare_spec y 9999) as [->|_|Hgt]; [|reflexivity|lia].
  destruct (Z.compare_spec m 12) as [->|_|Hgt]; [|reflexivity|lia].
  destruct (Z.compare_spec dd 31) as [->|_|Hgt]; [|reflexivity|lia].
  reflexivity.
Qed.
(** ** The retry wrapper *)

Module RetryFacts.
Import Retry.

Lemma calls_app (a b : list event) : calls (a ++ b) = calls a ++ calls b.
Proof. unfold calls. apply flat_map_app. Qed.

Lemma sleeps_app (a b : list event) : sleeps (a ++ b) = sleeps a ++ sleeps b.
Proof. unfold sleeps. apply flat_map_app. Qed.

(** Every pass through the loop body makes one upstream call, so the calls
    recorded grow by at most the number of attempts left. *)
Lemma search_loop_calls (ainvoke : nat -> outcome json) (attempts : list nat) :
  forall tr,
    (List.length (calls (snd (search_loop ainvoke attempts tr)))
     <= List.length (calls tr) + List.length attempts)%nat.
Proof.
  induction attempts as [|attempt rest IH]; intros tr; simpl.
  - lia.
  - destruct (ainvoke attempt) as [result|e]; simpl.
    + rewrite calls_app, List.length_app. simpl. lia.
    + destruct (overloaded e); simpl.
      * specialize (IH (tr ++ [Call attempt; Sleep (2 ^ Z.of_nat attempt)])).
        rewrite calls_app, List.length_app in IH. simpl in IH. lia.
      * rewrite calls_app, List.length_app. simpl. lia.
Qed.

(** One loop iteration whose call raises a retryable error. *)
Lemma search_loop_retry (ainvoke : nat -> outcome json) attempt rest tr e :
  ainvoke attempt = Raises e ->
  overloaded e = true ->
  search_loop ainvoke (attempt :: rest) tr
  = search_loop ainvoke rest (tr ++ [Call attempt; Sleep (2 ^ Z.of_nat attempt)]).
Proof. intros Hcall Hover. simpl. rewrite Hcall, Hover. reflexivity. Qed.

Ltac retry_step H k :=
  let e := fresh "e" in
  let Hcall := fresh "Hcall" in
  let Hover := fresh "Hover" in
  destruct (H k) as (e & Hcall & Hover); [lia|];
  rewrite (search_loop_retry _ k _ _ e Hcall Hover); clear Hcall Hover.

End RetryFacts.

(** C5: four overloaded failures, then a success: the result is returned,
    the sleeps are 1, 2, 4, 8 in that order, each between two consecutive
    attempts; and whatever the upstream does, at most 5 calls are made. *)
Theorem search_fifth_attempt_succeeds
  (ainvoke : nat -> outcome json) (result : json)
  (Hfail : forall k, (k < 4)%nat ->
           exists e, ainvoke k = Raises e /\ Retry.overloaded e = true)
  (Hok : ainvoke 4%nat = Returns result) :
  Retry.search ainvoke
  = (Returns result,
     [Retry.Call 0; Retry.Sleep 1; Retry.Call 1; Retry.Sleep 2;
      Retry.Call 2; Retry.Sleep 4; Retry.Call 3; Retry.Sleep 8; Retry.Call 4])
  /\ Retry.sleeps (snd (Retry.search ainvoke)) = [1; 2; 4; 8]
  /\ forall upstream : nat -> outcome json,
       (List.length (Retry.calls (snd (Retry.search upstream))) <= 5)%nat.
Proof.
  assert (Hrun : Retry.search ainvoke
    = (Returns result,
       [Retry.Call 0; Retry.Sleep 1; Retry.Call 1; Retry.Sleep 2;
        Retry.Call 2; Retry.Sleep 4; Retry.Call 3; Retry.Sleep 8; Retry.Call 4])).
  { unfold Retry.search, Retry.max_retries. cbn [seq].
    RetryFacts.retry_step Hfail 0%nat.
    RetryFacts.retry_step Hfail 1%nat.
    RetryFacts.retry_step Hfail 2%nat.
    RetryFacts.retry_step Hfail 3%nat.
    cbn [Retry.search_loop]. rewrite Hok. reflexivity. }
  split; [exact Hrun|]. split.
  - rewrite Hrun. reflexivity.
  - intros upstream. unfold Retry.search.
    pose proof (RetryFacts.search_loop_calls upstream (seq 0 Retry.max_retries) []) as Hb.
    rewrite List.length_seq in Hb. exact Hb.
Qed.

Lemma search_fifth_attempt_succeeds_witness :
  Retry.sleeps (snd (Retry.search Sample.flaky_upstream)) = [1; 2; 4; 8].
Proof.
  apply (search_fifth_attempt_succeeds Sample.flaky_upstream
           (JArr [JObj [("url", JStr "https://example.org")]])).
  - intros k Hk. exists (APIStatusError "{'type': 'overloaded_error'}").
    unfold Sample.flaky_upstream.
    destruct (Nat.ltb_spec k 4) as [_|Hge]; [|lia].
    split; reflexivity.
  - reflexivity.
Defined.

(** C6: an error on the first attempt that is not classified as overloaded
    is raised again at once: one call, no sleep, nothing after it. *)
Theorem search_fatal_error_propagates
  (ainvoke : nat -> outcome json) (e : exn)
  (Hcall : ainvoke 0%nat = Raises e)
  (Hfatal : Retry.overloaded e = false) :
  Retry.search ainvoke = (Raises e, [Retry.Call 0])
  /\ Retry.sleeps (snd (Retry.search ainvoke)) = []
  /\ Retry.calls (snd (Retry.search ainvoke)) = [0%nat].
Proof.
  assert (Hrun : Retry.search ainvoke = (Raises e, [Retry.Call 0])).
  { unfold Retry.search, Retry.max_retries. cbn [seq Retry.search_loop].
    rewrite Hcall, Hfatal. reflexivity. }
  rewrite Hrun. repeat split.
Qed.

Lemma search_fatal_error_propagates_witness :
  Retry.search (fun _ => Raises (APIStatusError "invalid_request_error"))
  = (Raises (APIStatusError "invalid_request_error"), [Retry.Call 0]).
Proof.
  apply (search_fatal_error_propagates
           (fun _ => Raises (APIStatusError "invalid_request_error"))
           (APIStatusError "invalid_request_error")); reflexivity.
Defined.

(** C10: when all five attempts are overloaded, every attempt, the last
    included, is followed by its sleep: 1, 2, 4, 8, 16, which is 31 in total;
    no call follows the last sleep and the result is None. *)
Theorem search_exhausted_returns_none
  (ainvoke : nat -> outcome json)
  (Hfail : forall k, (k < 5)%nat ->
           exists e, ainvoke k = Raises e /\ Retry.overloaded e = true) :
  Retry.search ainvoke
  = (Returns JNull,
     [Retry.Call 0; Retry.Sleep 1; Retry.Call 1; Retry.Sleep 2;
      Retry.Call 2; Retry.Sleep 4; Retry.Call 3; Retry.Sleep 8;
      Retry.Call 4; Retry.Sleep 16])
  /\ Retry.sleeps (snd (Retry.search ainvoke)) = [1; 2; 4; 8; 16]
  /\ fold_right Z.add 0 (Retry.sleeps (snd (Retry.search ainvoke))) = 31
  /\ last (snd (Retry.search ainvoke)) (Retry.Call 0) = Retry.Sleep 16.
Proof.
  assert (Hrun : Retry.search ainvoke
    = (Returns JNull,
       [Retry.Call 0; Retry.Sleep 1; Retry.Call 1; Retry.Sleep 2;
        Retry.Call 2; Retry.Sleep 4; Retry.Call 3; Retry.Sleep 8;
        Retry.Call 4; Retry.Sleep 16])).
  { unfold Retry.search, Retry.max_retries. cbn [seq].
    RetryFacts.retry_step Hfail 0%nat.
    RetryFacts.retry_step Hfail 1%nat.
    RetryFacts.retry_step Hfail 2%nat.
    RetryFacts.retry_step Hfail 3%nat.
    RetryFacts.retry_step Hfail 4%nat.
    reflexivity. }
  rewrite Hrun. repeat split.
Qed.

Lemma search_exhausted_returns_none_witness :
  fst (Retry.search (fun _ => Raises (APIStatusError "overloaded_error")))
  = Returns JNull.
Proof.
  pose proof (search_exhausted_returns_none
                (fun _ => Raises (APIStatusError "overloaded_error"))) as H.
  destruct H as [Hrun _].
  - intros k _. exists (APIStatusError "overloaded_error"). split; reflexivity.
  - rewrite Hrun. reflexivity.
Defined.

(** ** The parser *)

Section ParserFacts.

Variable json_loads : string -> outcome json.

(** Every exit of [parse_sbom], by what the decoder did. *)
Lemma parse_sbom_cases (sbom : string) :
  match json_loads sbom with
  | Raises JSONDecodeError =>
      parse_sbom json_loads sbom = (Returns JNull, [INFO; ERROR])
  | Raises e => parse_sbom json_loads sbom = (Raises e, [INFO])
  | Returns (JObj fields) =>
      match dict_get "components" fields with
      | None => parse_sbom json_loads sbom = (Returns (JArr []), [INFO; INFO])
      | Some (JArr items) =>
          parse_sbom json_loads sbom = (Returns (JArr items), [INFO; INFO])
      | Some _ => parse_sbom json_loads sbom = (Returns JNull, [INFO; WARNING])
      end
  | Returns _ => parse_sbom json_loads sbom = (Raises AttributeError, [INFO])
  end.
Proof.
  unfold parse_sbom.
  destruct (json_loads sbom) as [[| | | | | |fields]|[]]; try reflexivity.
  destruct (dict_get "components" fields) as [[| | | | | |]|]; reflexivity.
Qed.

(** An exception of the decoder that is no JSONDecodeError is not caught. *)
Lemma parse_sbom_decoder_raises (sbom : string) (e : exn) :
  json_loads sbom = Raises e ->
  e <> JSONDecodeError ->
  parse_sbom json_loads sbom = (Raises e, [INFO]).
Proof.
  intros Hd Hne. pose proof (parse_sbom_cases sbom) as Hc. rewrite Hd in Hc.
  destruct e; try exact Hc. congruence.
Qed.

End ParserFacts.

(** C4, as the code has it: when [json.loads] raises JSONDecodeError,
    [parse_sbom] raises nothing and returns None with an error logged, and
    the error level is logged in that case only.  For a text decoded to an
    object, an absent [components] gives the empty list, and a [components]
    that is no list gives None, the value returned after a JSONDecodeError,
    with a warning logged.  Any other exception of [json.loads] leaves
    [parse_sbom]. *)
Theorem parse_sbom_soft_failures
  (json_loads : string -> outcome json) (sbom : string) :
  (json_loads sbom = Raises JSONDecodeError ->
   parse_sbom json_loads sbom = (Returns JNull, [INFO; ERROR]))
  /\ (In ERROR (snd (parse_sbom json_loads sbom))
      <-> json_loads sbom = Raises JSONDecodeError)
  /\ (forall fields,
        json_loads sbom = Returns (JObj fields) ->
        dict_get "components" fields = None ->
        parse_sbom json_loads sbom = (Returns (JArr []), [INFO; INFO]))
  /\ (forall fields v,
        json_loads sbom = Returns (JObj fields) ->
        dict_get "components" fields = Some v ->
        is_list v = false ->
        parse_sbom json_loads sbom = (Returns JNull, [INFO; WARNING]))
  /\ (forall e,
        json_loads sbom = Raises e ->
        e <> JSONDecodeError ->
        parse_sbom json_loads sbom = (Raises e, [INFO])).
Proof.
  pose proof (parse_sbom_cases json_loads sbom) as Hc.
  split; [|split; [|split; [|split]]].
  - intros Hd. rewrite Hd in Hc. exact Hc.
  - split.
    + intros Herr.
      destruct (json_loads sbom) as [[| | | | | |fields]|[]]; try reflexivity;
        try (rewrite Hc in Herr; simpl in Herr;
             repeat (destruct Herr as [Herr|Herr]; try discriminate); contradiction).
      destruct (dict_get "components" fields) as [[| | | | | |]|];
        rewrite Hc in Herr; simpl in Herr;
        repeat (destruct Herr as [Herr|Herr]; try discriminate); contradiction.
    + intros Hd. rewrite Hd in Hc. rewrite Hc. simpl. auto.
  - intros fields Hd Habs. rewrite Hd, Habs in Hc. exact Hc.
  - intros fields v Hd Hv Hl. rewrite Hd, Hv in Hc.
    destruct v; try discriminate; exact Hc.
  - intros e Hd Hne. apply parse_sbom_decoder_raises; assumption.
Qed.

Lemma parse_sbom_soft_failures_witness :
  parse_sbom Sample.loads Sample.sbom_components_5 = (Returns JNull, [INFO; WARNING])
  /\ parse_sbom Sample.loads "{}" = (Returns (JArr []), [INFO; INFO])
  /\ parse_sbom Sample.loads "not json" = (Returns JNull, [INFO; ERROR])
  /\ parse_sbom Sample.loads Sample.sbom_long_integer = (Raises ValueError, [INFO]).
Proof.
  split; [|split; [|split]].
  - destruct (parse_sbom_soft_failures Sample.loads Sample.sbom_components_5)
      as (_ & _ & _ & Hnon & _).
    apply (Hnon [("components", JInt 5)] (JInt 5)); reflexivity.
  - destruct (parse_sbom_soft_failures Sample.loads "{}") as (_ & _ & Habs & _).
    apply (Habs []); reflexivity.
  - destruct (parse_sbom_soft_failures Sample.loads "not json") as (Hbad & _).
    apply Hbad. reflexivity.
  - destruct (parse_sbom_soft_failures Sample.loads Sample.sbom_long_integer)
      as (_ & _ & _ & _ & Hother).
    apply Hother; [vm_compute; reflexivity | discriminate].
Defined.

(** C4 does not hold as stated: on the valid JSON object
    [{"components": 5}] the parser's result is None, which is not an empty
    sequence and is the very value it gives for text that is not JSON. *)
Lemma parse_sbom_non_list_like_malformed :
  Sample.loads Sample.sbom_components_5 = Returns (JObj [("components", JInt 5)])
  /\ Sample.loads "not json" = Raises JSONDecodeError
  /\ fst (parse_sbom Sample.loads Sample.sbom_components_5) = Returns JNull
  /\ fst (parse_sbom Sample.loads Sample.sbom_components_5) <> Returns (JArr [])
  /\ fst (parse_sbom Sample.loads Sample.sbom_components_5)
     = fst (parse_sbom Sample.loads "not json").
Proof. repeat split; try reflexivity. discriminate. Qed.

(** C9, as the code has it: when [json.loads] returns an object whose
    [components] is a list, that list is the result, element for element,
    whatever its elements are.  When [json.loads] raises for the text, which
    it also does for some valid JSON, no list is returned: None after a
    JSONDecodeError, and every other exception leaves [parse_sbom]. *)
Theorem parse_sbom_returns_components_verbatim
  (json_loads : string -> outcome json) (sbom : string) :
  (forall fields items,
     json_loads sbom = Returns (JObj fields) ->
     dict_get "components" fields = Some (JArr items) ->
     fst (parse_sbom json_loads sbom) = Returns (JArr items))
  /\ (json_loads sbom = Raises JSONDecodeError ->
      fst (parse_sbom json_loads sbom) = Returns JNull)
  /\ (forall e,
        json_loads sbom = Raises e ->
        e <> JSONDecodeError ->
        fst (parse_sbom json_loads sbom) = Raises e).
Proof.
  pose proof (parse_sbom_cases json_loads sbom) as Hc.
  split; [|split].
  - intros fields items Hdecoded Hlist.
    rewrite Hdecoded, Hlist in Hc. rewrite Hc. reflexivity.
  - intros Hd. rewrite Hd in Hc. rewrite Hc. reflexivity.
  - intros e Hd Hne.
    rewrite (parse_sbom_decoder_raises json_loads sbom e Hd Hne). reflexivity.
Qed.

Lemma parse_sbom_returns_components_verbatim_witness :
  fst (parse_sbom Sample.loads Sample.sbom_two)
  = Returns (JArr [Sample.django; JInt 7]).
Proof.
  destruct (parse_sbom_returns_components_verbatim Sample.loads Sample.sbom_two)
    as [Hlist _].
  apply (Hlist [("components", JArr [Sample.django; JInt 7])]); reflexivity.
Defined.

(** C9 does not hold as stated: the text [{"components": [11...1]}] with an
    integer literal of 4301 digits is valid JSON whose [components] is a
    list, yet [json.loads] raises ValueError on it and [parse_sbom], which
    catches JSONDecodeError only, returns no list: the exception leaves it. *)
Lemma valid_json_list_not_returned :
  String.length Sample.sbom_long_integer = 4319%nat
  /\ Sample.loads Sample.sbom_long_integer = Raises ValueError
  /\ fst (parse_sbom Sample.loads Sample.sbom_long_integer) = Raises ValueError
  /\ forall items,
       fst (parse_sbom Sample.loads Sample.sbom_long_integer) <> Returns (JArr items).
Proof.
  assert (Hrun : fst (parse_sbom Sample.loads Sample.sbom_long_integer)
                 = Raises ValueError) by (vm_compute; reflexivity).
  split; [vm_compute; reflexivity|].
  split; [vm_compute; reflexivity|].
  split; [exact Hrun|].
  intros items. rewrite Hrun. discriminate.
Qed.

(** ** The matcher and the recommender *)

Section EngineFacts.

Variable py_repr : json -> string.
Variable http_get : nat -> string -> http_result.
Variable now : nat -> datetime.

Local Abbreviation check_framework := (check_framework py_repr http_get now).
Local Abbreviation check_loop := (check_loop py_repr http_get now).
Local Abbreviation check_eol_dates := (check_eol_dates py_repr http_get now).
Local Abbreviation version_data_of := (version_data_of py_repr http_get).
Local Abbreviation fetch_eol_data := (fetch_eol_data py_repr http_get).
Local Abbreviation judge := (judge now).
Local Abbreviation past_due := (past_due py_repr http_get now).

(** The loop over a concatenation is the loop over the first part followed
    by the loop over the second, positions shifted. *)
Lemma check_loop_app (pre : list json) :
  forall (post upgrades : list json) (i : nat),
    check_loop i (pre ++ post) upgrades
    = (ups <- check_loop i pre upgrades ;;
       check_loop (i + List.length pre) post ups).
Proof.
  induction pre as [|c pre IH]; intros post upgrades i; simpl.
  - rewrite Nat.add_0_r. reflexivity.
  - destruct (check_framework i c) as [added|e]; simpl; [|reflexivity].
    rewrite IH. rewrite Nat.add_succ_r. reflexivity.
Qed.

Lemma check_loop_cons (i : nat) (c : json) (rest upgrades : list json) :
  check_loop i (c :: rest) upgrades
  = (added <- check_framework i c ;; check_loop (S i) rest (upgrades ++ added)).
Proof. reflexivity. Qed.

Lemma check_eol_dates_nonempty (c : json) (rest : list json) :
  check_eol_dates (JArr (c :: rest))
  = (ups <- check_loop 0 (c :: rest) [] ;; Returns (JArr ups)).
Proof. reflexivity. Qed.

Lemma check_eol_dates_split (pre post : list json) (c : json) (ups : list json) :
  check_loop 0 pre [] = Returns ups ->
  check_eol_dates (JArr (pre ++ c :: post))
  = (added <- check_framework (List.length pre) c ;;
     r <- check_loop (S (List.length pre)) post (ups ++ added) ;;
     Returns (JArr r)).
Proof.
  intros Hpre.
  assert (Hrun : check_eol_dates (JArr (pre ++ c :: post))
                 = (r <- check_loop 0 (pre ++ c :: post) [] ;; Returns (JArr r))).
  { destruct pre; reflexivity. }
  rewrite Hrun, check_loop_app, Hpre. simpl.
  destruct (check_framework (List.length pre) c); reflexivity.
Qed.

(** An entry returned by the scan answered the ["cycle"] subscript. *)
Lemma find_cycle_obj (items : list json) (major : string) (fields : list (string * json)) :
  find_cycle items major = Returns (JObj fields) -> fields <> [].
Proof.
  induction items as [|item items IH]; simpl; [discriminate|].
  destruct (py_getitem item "cycle") as [c|e] eqn:Hc; simpl; [|discriminate].
  destruct (eq_str c major); [|exact IH].
  intros Heq. injection Heq as ->. simpl in Hc.
  destruct fields; [discriminate | congruence].
Qed.

(** The loop body is the decision taken on the entry it matched. *)
Lemma check_framework_via_version_data (i : nat) (c : json) :
  match version_data_of i c with
  | Raises e => check_framework i c = Raises e
  | Returns version_data =>
      exists name version eol_data,
        py_getitem c "name" = Returns name
        /\ py_getitem c "version" = Returns version
        /\ fetch_eol_data i name = Returns eol_data
        /\ (truthy eol_data = false -> version_data = JNull)
        /\ check_framework i c = judge i name version eol_data version_data
  end.
Proof.
  unfold version_data_of, check_framework.
  destruct (py_getitem c "name") as [name|e]; simpl; [|reflexivity].
  destruct (py_getitem c "version") as [version|e]; simpl; [|reflexivity].
  destruct (major_of version) as [major|e]; simpl; [|reflexivity].
  destruct (fetch_eol_data i name) as [eol_data|e] eqn:Hfetch; simpl; [|reflexivity].
  destruct (truthy eol_data) eqn:Htruthy.
  - destruct (py_iter eol_data) as [items|e]; simpl; [|reflexivity].
    destruct (find_cycle items major) as [vd|e]; simpl; [|reflexivity].
    exists name, version, eol_data.
    repeat split; try assumption. intros Hfalse. congruence.
  - exists name, version, eol_data. repeat split; assumption || reflexivity.
Qed.

Lemma version_data_of_obj (i : nat) (c : json) (fields : list (string * json)) :
  version_data_of i c = Returns (JObj fields) -> fields <> [].
Proof.
  unfold version_data_of.
  destruct (py_getitem c "name") as [name|e]; simpl; [|discriminate].
  destruct (py_getitem c "version") as [version|e]; simpl; [|discriminate].
  destruct (major_of version) as [major|e]; simpl; [|discriminate].
  destruct (fetch_eol_data i name) as [eol_data|e]; simpl; [|discriminate].
  destruct (truthy eol_data); [|discriminate].
  destruct (py_iter eol_data) as [items|e]; simpl; [|discriminate].
  apply find_cycle_obj.
Qed.

Lemma judge_not_str (i : nat) (name version eol_data : json)
      (fields : list (string * json)) :
  is_str (py_get fields "eol") = false ->
  judge i name version eol_data (JObj fields) = Returns [].
Proof.
  intros Hns. unfold judge.
  destruct (truthy (JObj fields)); [|reflexivity].
  simpl. destruct (py_get fields "eol"); try reflexivity. discriminate.
Qed.

Lemma judge_unparseable (i : nat) (name version eol_data : json)
      (fields : list (string * json)) (s : string) :
  fields <> [] ->
  py_get fields "eol" = JStr s ->
  strptime s = None ->
  judge i name version eol_data (JObj fields) = Raises ValueError.
Proof.
  intros Hne Heol Hbad. unfold judge.
  destruct fields as [|kv fields]; [congruence|].
  cbn [truthy get_eol bind]. rewrite Heol.
  unfold strptime_exn. rewrite Hbad. reflexivity.
Qed.

(** Whatever the decision appends was decided on a date that parsed and
    lies before the clock reading. *)
Lemma judge_appends (i : nat) (name version eol_data version_data : json)
      (added : list json) :
  judge i name version eol_data version_data = Returns added ->
  added <> [] ->
  exists fields s d,
    version_data = JObj fields
    /\ py_get fields "eol" = JStr s
    /\ strptime s = Some d
    /\ dt_ltb d (now i) = true.
Proof.
  unfold judge. intros Hj Hne.
  destruct (truthy version_data); [|injection Hj as <-; congruence].
  destruct version_data as [| | | | | |fields]; simpl in Hj; try discriminate.
  destruct (py_get fields "eol") as [| | | |s| |] eqn:Heol;
    try (injection Hj as <-; congruence).
  unfold strptime_exn in Hj.
  destruct (strptime s) as [d|] eqn:Hd; simpl in Hj; [|discriminate].
  destruct (dt_ltb d (now i)) eqn:Hlt; [|injection Hj as <-; congruence].
  exists fields, s, d. repeat split; assumption.
Qed.

Lemma check_framework_appends (i : nat) (c : json) (added : list json) :
  check_framework i c = Returns added ->
  added <> [] ->
  past_due i c.
Proof.
  intros Hrun Hne.
  pose proof (check_framework_via_version_data i c) as Hvia.
  destruct (version_data_of i c) as [vd|e] eqn:Hvd; [|congruence].
  destruct Hvia as (name & version & eol_data & _ & _ & _ & _ & Hj).
  rewrite Hj in Hrun.
  destruct (judge_appends _ _ _ _ _ _ Hrun Hne) as (fields & s & d & -> & H1 & H2 & H3).
  exists fields, s, d. repeat split; assumption.
Qed.

(** No exception and nobody past due: the loop leaves [upgrades] as it is. *)
Lemma check_loop_nothing_due (items : list json) :
  forall (i : nat) (upgrades : list json),
    (forall j c, nth_error items j = Some c ->
                 ~ past_due (i + j) c
                 /\ exists added, check_framework (i + j) c = Returns added) ->
    check_loop i items upgrades = Returns upgrades.
Proof.
  induction items as [|c items IH]; intros i upgrades Hall; [reflexivity|].
  destruct (Hall 0%nat c eq_refl) as [Hnot [added Hrun]].
  rewrite Nat.add_0_r in Hnot, Hrun.
  simpl. rewrite Hrun. simpl.
  destruct added as [|u added].
  - rewrite app_nil_r. apply IH. intros j c' Hj.
    rewrite Nat.add_succ_l, <- Nat.add_succ_r. apply (Hall (S j) c'). exact Hj.
  - exfalso. apply Hnot. eapply check_framework_appends; [exact Hrun | discriminate].
Qed.

(** An exception in the loop over a prefix is the exception of the call. *)
Lemma check_eol_dates_prefix_raises (pre rest : list json) (e : exn) :
  check_loop 0 pre [] = Raises e ->
  check_eol_dates (JArr (pre ++ rest)) = Raises e.
Proof.
  intros Hpre.
  destruct pre as [|c pre]; [discriminate|].
  change ((c :: pre) ++ rest) with (c :: (pre ++ rest)).
  rewrite check_eol_dates_nonempty.
  change (c :: (pre ++ rest)) with ((c :: pre) ++ rest).
  rewrite check_loop_app, Hpre. reflexivity.
Qed.

Lemma eol_key_subscript (v : json) (K : datetime) :
  eol_key v = Returns K -> exists e, py_getitem v "eol" = Returns e.
Proof.
  unfold eol_key. destruct (py_getitem v "eol") as [e|x]; [|discriminate].
  intros _. exists e. reflexivity.
Qed.

Lemma eol_key_not_str (v e : json) :
  py_getitem v "eol" = Returns e -> is_str e = false ->
  eol_key v = Returns datetime_max.
Proof.
  unfold eol_key. intros -> Hns. simpl. destruct e; try reflexivity. discriminate.
Qed.

End EngineFacts.

(** ** The claims about check_eol_dates *)

Section EngineClaims.

Variable py_repr : json -> string.
Variable http_get : nat -> string -> http_result.
Variable now : nat -> datetime.

Local Abbreviation check_framework := (check_framework py_repr http_get now).
Local Abbreviation check_loop := (check_loop py_repr http_get now).
Local Abbreviation check_eol_dates := (check_eol_dates py_repr http_get now).
Local Abbreviation version_data_of := (version_data_of py_repr http_get).
Local Abbreviation fetch_eol_data := (fetch_eol_data py_repr http_get).
Local Abbreviation judge := (judge now).
Local Abbreviation past_due := (past_due py_repr http_get now).

(** C1, as the code has it, for a component that the loop reaches (the
    components before it went through without an exception): a matched entry
    whose [eol] is absent or is not a string makes the component not past
    due; it adds nothing, raises nothing, and the call goes on with the
    components after it, its outcome being theirs.  A matched entry whose
    [eol] is a string of ASCII characters that does not parse makes the whole
    call raise ValueError. *)
Theorem eol_not_a_string_is_skipped
  (pre post : list json) (c : json) (fields : list (string * json))
  (ups : list json)
  (Hpre : check_loop 0 pre [] = Returns ups)
  (Hmatch : version_data_of (List.length pre) c = Returns (JObj fields)) :
  (is_str (py_get fields "eol") = false ->
     ~ past_due (List.length pre) c
     /\ check_framework (List.length pre) c = Returns []
     /\ check_eol_dates (JArr (pre ++ c :: post))
        = (r <- check_loop (S (List.length pre)) post ups ;; Returns (JArr r)))
  /\ (forall s, py_get fields "eol" = JStr s ->
                 ascii_text s = true ->
                 strptime s = None ->
        check_eol_dates (JArr (pre ++ c :: post)) = Raises ValueError).
Proof.
  pose proof (check_framework_via_version_data py_repr http_get now (List.length pre) c)
    as Hvia.
  rewrite Hmatch in Hvia.
  destruct Hvia as (name & version & eol_data & _ & _ & _ & _ & Hbody).
  pose proof (version_data_of_obj _ _ _ _ _ Hmatch) as Hne.
  split.
  - intros Hns.
    assert (Hskip : check_framework (List.length pre) c = Returns []).
    { rewrite Hbody. apply judge_not_str. exact Hns. }
    split; [|split].
    + intros (fields' & s & d & Hvd & Heol & _).
      rewrite Hmatch in Hvd. injection Hvd as <-.
      rewrite Heol in Hns. discriminate.
    + exact Hskip.
    + rewrite (check_eol_dates_split _ _ _ pre post c ups Hpre), Hskip.
      cbn [bind]. rewrite app_nil_r. reflexivity.
  - intros s Heol _ Hbad.
    rewrite (check_eol_dates_split _ _ _ pre post c ups Hpre), Hbody.
    rewrite (judge_unparseable now _ name version eol_data fields s Hne Heol Hbad).
    reflexivity.
Qed.

(** C2: version "1.0.0" against the table of cycles "1" (2023-12-31) and
    "2" (2025-12-31), at any clock reading after 2023-12-31: the component is
    past due and the call returns exactly one recommendation, the dict with
    the five keys name, current_version, eol_date, suggested_version and
    suggested_eol_date holding the component's name, "1.0.0", "2023-12-31",
    "2" and "2025-12-31". *)
Theorem check_eol_dates_worked_example
  (fields : list (string * json)) (name : json)
  (Hname : dict_get "name" fields = Some name)
  (Hversion : dict_get "version" fields = Some (JStr "1.0.0"))
  (Hfeed : fetch_eol_data 0 name = Returns Sample.table)
  (Hclock : dt_ltb (mk_datetime 2023 12 31 0 0 0 0) (now 0%nat) = true) :
  past_due 0 (JObj fields)
  /\ check_eol_dates (JArr [JObj fields])
     = Returns (JArr [JObj [("name", name);
                            ("current_version", JStr "1.0.0");
                            ("eol_date", JStr "2023-12-31");
                            ("suggested_version", JStr "2");
                            ("suggested_eol_date", JStr "2025-12-31")]]).
Proof.
  assert (Hparse : strptime "2023-12-31" = Some (mk_datetime 2023 12 31 0 0 0 0))
    by reflexivity.
  split.
  - exists [("cycle", JStr "1"); ("eol", JStr "2023-12-31")], "2023-12-31",
      (mk_datetime 2023 12 31 0 0 0 0).
    repeat split; try assumption.
    unfold version_data_of. cbn [py_getitem]. rewrite Hname, Hversion.
    cbn [bind major_of]. rewrite Hfeed. reflexivity.
  - rewrite check_eol_dates_nonempty, check_loop_cons.
    unfold check_framework. cbn [py_getitem]. rewrite Hname, Hversion.
    cbn [bind major_of]. rewrite Hfeed.
    change (before_dot "1.0.0") with "1".
    cbn [Sample.table truthy py_iter bind find_cycle py_getitem dict_get
         String.eqb Ascii.eqb Bool.eqb eq_str].
    unfold judge. cbn [truthy get_eol py_get dict_get String.eqb Ascii.eqb Bool.eqb bind].
    unfold strptime_exn at 1. rewrite Hparse. cbn [bind]. rewrite Hclock.
    reflexivity.
Qed.

(** C3, as the code has it: for a past-due component whose table entries
    all carry a ["cycle"] and an ["eol"] that is either a date that parses or
    not a string at all, the suggestion is the entry with the greatest key,
    the first such entry in table order; an [eol] that is not a string counts
    as [datetime.max], which lies after every date that parses. *)
Theorem suggestion_is_first_latest
  (i : nat) (c name : json) (items : list json)
  (Hdue : past_due i c)
  (Hname : py_getitem c "name" = Returns name)
  (Hfeed : fetch_eol_data i name = Returns (JArr items))
  (Hkeyed : Forall keyed items)
  (Hcycles : Forall (fun v => exists cyc, py_getitem v "cycle" = Returns cyc) items) :
  (exists n winner K version eol_date cycle eol,
     first_max items n winner K
     /\ py_getitem c "version" = Returns version
     /\ py_getitem winner "cycle" = Returns cycle
     /\ py_getitem winner "eol" = Returns eol
     /\ check_framework i c
        = Returns [recommendation name version eol_date cycle eol])
  /\ (forall v e, py_getitem v "eol" = Returns e -> is_str e = false ->
                  eol_key v = Returns datetime_max)
  /\ (forall s d, strptime s = Some d -> dt_ltb d datetime_max = true).
Proof.
  split; [|split; [exact eol_key_not_str | exact strptime_before_max]].
  destruct Hdue as (fields & s & d & Hvd & Heol & Hdate & Hpast).
  pose proof (check_framework_via_version_data py_repr http_get now i c) as Hvia.
  rewrite Hvd in Hvia.
  destruct Hvia as (name' & version & eol_data & Hname' & Hversion & Hfeed' & Hfalsy & Hbody).
  rewrite Hname in Hname'. injection Hname' as <-.
  rewrite Hfeed in Hfeed'. injection Hfeed' as <-.
  pose proof (version_data_of_obj _ _ _ _ _ Hvd) as Hne.
  assert (Hitems : items <> []).
  { intros ->. specialize (Hfalsy eq_refl). discriminate. }
  destruct (py_max_first_max items Hitems Hkeyed) as (n & winner & K & Hmax & Hfm).
  assert (Hin : In winner items).
  { destruct Hfm as (Hn & _). eapply nth_error_In. exact Hn. }
  destruct (proj1 (Forall_forall _ _) Hcycles winner Hin) as [cycle Hcycle].
  destruct (eol_key_subscript winner K (proj1 (proj2 Hfm))) as [eol Hweol].
  exists n, winner, K, version, (JStr s), cycle, eol.
  repeat split; try assumption; try apply Hfm.
  rewrite Hbody. unfold judge.
  destruct fields as [|kv fields]; [congruence|].
  cbn [truthy get_eol bind]. rewrite Heol.
  unfold strptime_exn. rewrite Hdate. cbn [bind]. rewrite Hpast.
  cbn [py_iter bind]. rewrite Hmax. cbn [bind]. rewrite Hcycle, Hweol.
  reflexivity.
Qed.

(** C7, as the code has it: None comes back exactly for an input with no
    truth value, the empty list and None among them; a non-empty list on
    which no component is past due and no iteration raises gives the empty
    list. *)
Theorem check_eol_dates_none_or_empty :
  (forall frameworks,
     check_eol_dates frameworks = Returns JNull <-> truthy frameworks = false)
  /\ (forall items, check_eol_dates (JArr items) = Returns JNull <-> items = [])
  /\ check_eol_dates JNull = Returns JNull
  /\ (forall items,
        items <> [] ->
        (forall i c, nth_error items i = Some c ->
                     ~ past_due i c
                     /\ exists added, check_framework i c = Returns added) ->
        check_eol_dates (JArr items) = Returns (JArr [])).
Proof.
  assert (Hnone : forall frameworks,
             check_eol_dates frameworks = Returns JNull <-> truthy frameworks = false).
  { intros frameworks. unfold check_eol_dates.
    destruct (truthy frameworks); simpl; split; try reflexivity; try discriminate.
    destruct (py_iter frameworks) as [items|e]; simpl; [|discriminate].
    destruct (check_loop 0 items []); simpl; discriminate. }
  split; [exact Hnone|]. split; [|split].
  - intros items. rewrite Hnone. destruct items; simpl; split; congruence.
  - reflexivity.
  - intros items Hne Hall.
    destruct items as [|c rest]; [congruence|].
    rewrite check_eol_dates_nonempty.
    rewrite (check_loop_nothing_due py_repr http_get now (c :: rest) 0 []).
    + reflexivity.
    + intros j c' Hj. apply Hall. exact Hj.
Qed.

(** C8, as the code has it: a component dict without ["name"] or without
    ["version"] is never skipped: the call raises.  It raises the KeyError of
    that component when the components before it went through; otherwise the
    exception of an earlier component has already ended the call. *)
Theorem missing_key_raises
  (pre post : list json) (fields : list (string * json))
  (Hmissing : dict_get "name" fields = None \/ dict_get "version" fields = None) :
  (exists e, check_eol_dates (JArr (pre ++ JObj fields :: post)) = Raises e)
  /\ (forall ups,
        check_loop 0 pre [] = Returns ups ->
        (dict_get "name" fields = None ->
         check_eol_dates (JArr (pre ++ JObj fields :: post))
         = Raises (KeyError "name"))
        /\ (dict_get "name" fields <> None ->
            check_eol_dates (JArr (pre ++ JObj fields :: post))
            = Raises (KeyError "version"))).
Proof.
  assert (Hkey : forall ups,
             check_loop 0 pre [] = Returns ups ->
             (dict_get "name" fields = None ->
              check_eol_dates (JArr (pre ++ JObj fields :: post))
              = Raises (KeyError "name"))
             /\ (dict_get "name" fields <> None ->
                 check_eol_dates (JArr (pre ++ JObj fields :: post))
                 = Raises (KeyError "version"))).
  { intros ups Hpre.
    rewrite (check_eol_dates_split _ _ _ pre post (JObj fields) ups Hpre).
    unfold check_framework. cbn [py_getitem].
    split.
    - intros Hn. rewrite Hn. reflexivity.
    - intros Hn. destruct (dict_get "name" fields) as [name|]; [|congruence].
      destruct Hmissing as [Hm|Hm]; [discriminate|]. rewrite Hm. reflexivity. }
  split; [|exact Hkey].
  destruct (check_loop 0 pre []) as [ups|e] eqn:Hpre.
  - destruct (Hkey ups eq_refl) as [Hname Hversion].
    destruct (dict_get "name" fields) as [name|] eqn:Hn.
    + eexists. apply Hversion. discriminate.
    + eexists. apply Hname. reflexivity.
  - exists e. apply check_eol_dates_prefix_raises. exact Hpre.
Qed.

End EngineClaims.

(** ** The claims on the sample feed *)


(** The rails entry matched on the sample feed is not past due: its [eol]
    does not parse. *)
Lemma rails_not_due (i : nat) : ~ OnSample.due i Sample.rails.
Proof.
  intros (fields & s & d & Hvd & Heol & Hdate & _).
  vm_compute in Hvd. apply (f_equal (fun o => match o with
                                              | Returns (JObj f) => f
                                              | _ => []
                                              end)) in Hvd.
  cbv beta iota in Hvd. subst fields.
  vm_compute in Heol. assert (Hs : s = "TBD") by congruence. subst s.
  vm_compute in Hdate. discriminate.
Qed.

(** The flask entry matched on the sample feed is not past due: its [eol]
    is [False]. *)
Lemma flask_not_due (i : nat) : ~ OnSample.due i Sample.flask.
Proof.
  intros (fields & s & d & Hvd & Heol & _).
  vm_compute in Hvd. apply (f_equal (fun o => match o with
                                              | Returns (JObj f) => f
                                              | _ => []
                                              end)) in Hvd.
  cbv beta iota in Hvd. subst fields.
  vm_compute in Heol. discriminate.
Qed.

Lemma eol_not_a_string_is_skipped_witness :
  OnSample.run [Sample.django; Sample.flask; Sample.django]
  = Returns (JArr [Sample.django_upgrade; Sample.django_upgrade])
  /\ OnSample.run [Sample.django; Sample.rails; Sample.django] = Raises ValueError.
Proof.
  split.
  - destruct (eol_not_a_string_is_skipped Sample.repr Sample.feed Sample.clock
                [Sample.django] [Sample.django] Sample.flask
                [("cycle", JStr "1"); ("eol", JBool false)]
                [Sample.django_upgrade] eq_refl eq_refl) as [Hskip _].
    destruct (Hskip eq_refl) as (_ & _ & Hrun).
    etransitivity; [exact Hrun | reflexivity].
  - destruct (eol_not_a_string_is_skipped Sample.repr Sample.feed Sample.clock
                [Sample.django] [Sample.django] Sample.rails
                [("cycle", JStr "1"); ("eol", JStr "TBD")]
                [Sample.django_upgrade] eq_refl eq_refl) as [_ Hraise].
    apply (Hraise "TBD"); reflexivity.
Defined.

(** C1 does not hold as stated: the entry matched for rails has the string
    "TBD" as its [eol], which is no date; the call does not skip the
    component but raises ValueError, and django after it is never reached. *)
Lemma unparseable_eol_raises :
  OnSample.matched 0 Sample.rails
  = Returns (JObj [("cycle", JStr "1"); ("eol", JStr "TBD")])
  /\ strptime "TBD" = None
  /\ OnSample.run [Sample.rails; Sample.django] = Raises ValueError.
Proof. repeat split. Qed.

Lemma check_eol_dates_worked_example_witness :
  OnSample.run [JObj [("name", JStr "django"); ("version", JStr "1.0.0")]]
  = Returns (JArr [JObj [("name", JStr "django");
                         ("current_version", JStr "1.0.0");
                         ("eol_date", JStr "2023-12-31");
                         ("suggested_version", JStr "2");
                         ("suggested_eol_date", JStr "2025-12-31")]]).
Proof.
  apply (check_eol_dates_worked_example Sample.repr Sample.feed Sample.clock
           [("name", JStr "django"); ("version", JStr "1.0.0")] (JStr "django"));
    reflexivity.
Defined.

Lemma vue_due : OnSample.due 0 Sample.vue.
Proof.
  exists [("cycle", JStr "1"); ("eol", JStr "2023-12-31")], "2023-12-31",
    (mk_datetime 2023 12 31 0 0 0 0).
  repeat split.
Defined.

Lemma suggestion_is_first_latest_witness :
  exists n winner K version eol_date,
    first_max [JObj [("cycle", JStr "1"); ("eol", JStr "2023-12-31")];
               JObj [("cycle", JStr "2"); ("eol", JBool false)];
               JObj [("cycle", JStr "3"); ("eol", JBool false)]] n winner K
    /\ check_framework Sample.repr Sample.feed Sample.clock 0 Sample.vue
       = Returns [recommendation (JStr "vue") version eol_date
                    (JStr "2") (JBool false)].
Proof.
  destruct (suggestion_is_first_latest Sample.repr Sample.feed Sample.clock
              0 Sample.vue (JStr "vue")
              [JObj [("cycle", JStr "1"); ("eol", JStr "2023-12-31")];
               JObj [("cycle", JStr "2"); ("eol", JBool false)];
               JObj [("cycle", JStr "3"); ("eol", JBool false)]])
    as [(n & winner & K & version & eol_date & cycle & eol
         & Hfm & _ & Hcycle & Heol & Hrun) _].
  - exact vue_due.
  - reflexivity.
  - reflexivity.
  - repeat constructor; eexists; reflexivity.
  - repeat constructor; eexists; reflexivity.
  - exists n, winner, K, version, eol_date. split; [exact Hfm|].
    rewrite Hrun. vm_compute in Hrun.
    assert (Hc : cycle = JStr "2") by congruence.
    assert (He : eol = JBool false) by congruence.
    rewrite Hc, He. reflexivity.
Defined.

(** C3 does not hold as stated: node 1.4.2 is past due (cycle "1" ended on
    2023-12-31), the other entry of its table has an [eol] that does not
    parse, and instead of that entry winning the maximum the call raises
    ValueError and suggests nothing. *)
Lemma unparseable_entry_is_no_maximum :
  OnSample.due 0 Sample.node
  /\ fetch_eol_data Sample.repr Sample.feed 0 (JStr "node") = Returns Sample.table_late_tbd
  /\ eol_key (JObj [("cycle", JStr "2"); ("eol", JStr "TBD")]) = Raises ValueError
  /\ OnSample.run [Sample.node] = Raises ValueError.
Proof.
  split.
  - exists [("cycle", JStr "1"); ("eol", JStr "2023-12-31")], "2023-12-31",
      (mk_datetime 2023 12 31 0 0 0 0).
    repeat split.
  - repeat split.
Qed.

Lemma check_eol_dates_none_or_empty_witness :
  OnSample.run [Sample.flask] = Returns (JArr [])
  /\ OnSample.run [] = Returns JNull.
Proof.
  destruct (check_eol_dates_none_or_empty Sample.repr Sample.feed Sample.clock)
    as (_ & Hnone & _ & Hempty).
  split.
  - apply Hempty; [discriminate|].
    intros i c Hc. destruct i as [|i]; simpl in Hc.
    + assert (Heq : c = Sample.flask) by congruence. subst c. split.
      * apply (flask_not_due 0).
      * exists []. reflexivity.
    + destruct i; discriminate.
  - apply Hnone. reflexivity.
Defined.

(** C7 does not hold as stated: the list is not empty and rails is not past
    due, yet the call returns no empty sequence: it raises ValueError. *)
Lemma nothing_due_yet_raises :
  ~ OnSample.due 0 Sample.rails
  /\ OnSample.run [Sample.rails] = Raises ValueError
  /\ OnSample.run [Sample.rails] <> Returns (JArr []).
Proof.
  split; [apply rails_not_due|]. split; [reflexivity | discriminate].
Qed.

Lemma missing_key_raises_witness :
  OnSample.run [Sample.flask; Sample.unversioned; Sample.django]
  = Raises (KeyError "version").
Proof.
  destruct (missing_key_raises Sample.repr Sample.feed Sample.clock
              [Sample.flask] [Sample.django] [("name", JStr "flask")])
    as [_ Hkey].
  - right. reflexivity.
  - destruct (Hkey [] eq_refl) as [_ Hversion].
    apply Hversion. discriminate.
Defined.

(** C8 does not hold as stated: the second record has no ["version"], yet
    the call raises no KeyError: rails before it has already raised
    ValueError. *)
Lemma missing_key_behind_other_error :
  nth_error [Sample.rails; Sample.unversioned] 1 = Some (JObj [("name", JStr "flask")])
  /\ dict_get "version" [("name", JStr "flask")] = None
  /\ OnSample.run [Sample.rails; Sample.unversioned] = Raises ValueError
  /\ forall key, OnSample.run [Sample.rails; Sample.unversioned] <> Raises (KeyError key).
Proof.
  repeat split. intros key. discriminate.
Qed.

(** * Further properties *)

(** ** The retry loop in general *)

Module RetryShape.
Import Retry.

Lemma sleeps_retry_events (attempts : list nat) :
  sleeps (flat_map retry_events attempts) = map (fun a => 2 ^ Z.of_nat a) attempts.
Proof.
  induction attempts as [|a attempts IH]; [reflexivity|].
  cbn [flat_map map]. rewrite RetryFacts.sleeps_app, IH. reflexivity.
Qed.

Lemma calls_retry_events (attempts : list nat) :
  calls (flat_map retry_events attempts) = attempts.
Proof.
  induction attempts as [|a attempts IH]; [reflexivity|].
  cbn [flat_map]. rewrite RetryFacts.calls_app, IH. reflexivity.
Qed.

(** Attempts that are all retried only extend the trace. *)
Lemma search_loop_retried (ainvoke : nat -> outcome json) (pre : list nat) :
  forall rest tr,
    Forall (fun a => retried (ainvoke a)) pre ->
    search_loop ainvoke (pre ++ rest) tr
    = search_loop ainvoke rest (tr ++ flat_map retry_events pre).
Proof.
  induction pre as [|a pre IH]; intros rest tr Hall.
  - cbn [flat_map app]. rewrite app_nil_r. reflexivity.
  - inversion Hall as [|a' pre' (e & Hcall & Hover) Hpre]; subst.
    change ((a :: pre) ++ rest) with (a :: (pre ++ rest)).
    rewrite (RetryFacts.search_loop_retry ainvoke a (pre ++ rest) tr e Hcall Hover).
    rewrite (IH rest _ Hpre). cbn [flat_map]. unfold retry_events at 3.
    rewrite <- app_assoc. reflexivity.
Qed.

(** A decisive attempt ends the loop with its own outcome. *)
Lemma search_loop_decisive (ainvoke : nat -> outcome json) (k : nat) rest tr :
  decisive (ainvoke k) ->
  search_loop ainvoke (k :: rest) tr = (ainvoke k, tr ++ [Call k]).
Proof.
  unfold decisive. intros Hdec. cbn [search_loop].
  destruct (ainvoke k) as [r|e]; [reflexivity|]. rewrite Hdec. reflexivity.
Qed.

Lemma decisive_or_retried (o : outcome json) : decisive o \/ retried o.
Proof.
  destruct o as [r|e]; [left; exact I|].
  destruct (overloaded e) eqn:Hover.
  - right. exists e. split; [reflexivity | exact Hover].
  - left. exact Hover.
Qed.

(** The loop stops at the first decisive attempt, or runs out. *)
Lemma search_loop_shape (ainvoke : nat -> outcome json) (attempts : list nat) :
  forall tr,
    (Forall (fun a => retried (ainvoke a)) attempts
     /\ search_loop ainvoke attempts tr
        = (Returns JNull, tr ++ flat_map retry_events attempts))
    \/ (exists pre k rest,
          attempts = pre ++ k :: rest
          /\ Forall (fun a => retried (ainvoke a)) pre
          /\ decisive (ainvoke k)
          /\ search_loop ainvoke attempts tr
             = (ainvoke k, tr ++ flat_map retry_events pre ++ [Call k])).
Proof.
  induction attempts as [|a attempts IH]; intros tr.
  - left. split; [constructor|]. cbn. rewrite app_nil_r. reflexivity.
  - destruct (decisive_or_retried (ainvoke a)) as [Hdec|Hret].
    + right. exists [], a, attempts. repeat split; [constructor | exact Hdec |].
      apply search_loop_decisive. exact Hdec.
    + destruct Hret as (e & Hcall & Hover).
      rewrite (RetryFacts.search_loop_retry ainvoke a attempts tr e Hcall Hover).
      destruct (IH (tr ++ [Call a; Sleep (2 ^ Z.of_nat a)]))
        as [[Hall Hrun] | (pre & k & rest & Heq & Hall & Hdec & Hrun)].
      * left. split.
        -- constructor; [exists e; split; assumption | exact Hall].
        -- rewrite Hrun. cbn [flat_map]. unfold retry_events at 2.
           rewrite <- app_assoc. reflexivity.
      * right. exists (a :: pre), k, rest. subst attempts.
        repeat split; try assumption.
        -- constructor; [exists e; split; assumption | exact Hall].
        -- rewrite Hrun. cbn [flat_map]. unfold retry_events at 2.
           rewrite <- app_assoc. reflexivity.
Qed.

(** A prefix of a run of consecutive numbers is such a run. *)
Lemma seq_prefix (pre : list nat) :
  forall a n rest, seq a n = pre ++ rest -> pre = seq a (List.length pre).
Proof.
  induction pre as [|x pre IH]; intros a n rest Heq; [reflexivity|].
  destruct n as [|n]; [discriminate|].
  cbn [seq app] in Heq. injection Heq as <- Hrest.
  cbn [List.length seq]. f_equal. eapply IH. exact Hrest.
Qed.

Lemma seq_middle (pre : list nat) :
  forall a n k rest, seq a n = pre ++ k :: rest -> k = (a + List.length pre)%nat.
Proof.
  induction pre as [|x pre IH]; intros a n k rest Heq;
    (destruct n as [|n]; [discriminate|]);
    cbn [seq app] in Heq; injection Heq as Hhead Hrest.
  - cbn. lia.
  - apply IH in Hrest. cbn [List.length]. lia.
Qed.

Lemma backoff_total (n : nat) :
  (n <= 5)%nat ->
  fold_right Z.add 0 (map (fun a => 2 ^ Z.of_nat a) (seq 0 n)) = 2 ^ Z.of_nat n - 1.
Proof.
  intros Hn.
  destruct n as [|[|[|[|[|[|n]]]]]]; try reflexivity. lia.
Qed.

End RetryShape.

(** X1: whatever the upstream does, [search] gives the outcome of the first
    attempt that is not an overloaded error: if attempts 0 to k-1 are
    overloaded and attempt k, k below 5, returns or raises anything else,
    that value or exception is the outcome, after k+1 calls and the sleeps
    1, 2, ..., 2^(k-1). *)
Theorem search_first_decisive_attempt
  (ainvoke : nat -> outcome json) (k : nat)
  (Hk : (k < 5)%nat)
  (Hbefore : forall a, (a < k)%nat -> retried (ainvoke a))
  (Hdec : decisive (ainvoke k)) :
  fst (Retry.search ainvoke) = ainvoke k
  /\ Retry.calls (snd (Retry.search ainvoke)) = seq 0 (S k)
  /\ Retry.sleeps (snd (Retry.search ainvoke))
     = map (fun a => 2 ^ Z.of_nat a) (seq 0 k).
Proof.
  assert (Hrun : Retry.search ainvoke
                 = (ainvoke k, flat_map retry_events (seq 0 k) ++ [Retry.Call k])).
  { unfold Retry.search, Retry.max_retries.
    replace 5%nat with (k + (5 - k))%nat by lia.
    rewrite seq_app. cbn [Nat.add].
    rewrite RetryShape.search_loop_retried.
    - destruct (5 - k)%nat as [|m] eqn:Hm; [lia|].
      cbn [seq]. rewrite (RetryShape.search_loop_decisive ainvoke k _ _ Hdec).
      reflexivity.
    - apply Forall_forall. intros a Ha. apply in_seq in Ha. apply Hbefore. lia. }
  rewrite Hrun. cbn [fst snd]. split; [reflexivity|]. split.
  - rewrite RetryFacts.calls_app, RetryShape.calls_retry_events.
    rewrite seq_S. reflexivity.
  - rewrite RetryFacts.sleeps_app, RetryShape.sleeps_retry_events.
    cbn. rewrite app_nil_r. reflexivity.
Qed.

Lemma search_first_decisive_attempt_witness :
  fst (Retry.search More.third_time_fatal) = Raises (OtherError "connection reset")
  /\ Retry.sleeps (snd (Retry.search More.third_time_fatal)) = [1; 2].
Proof.
  destruct (search_first_decisive_attempt More.third_time_fatal 2)
    as (Hout & _ & Hsleeps).
  - lia.
  - intros a Ha. exists (APIStatusError "overloaded_error").
    destruct a as [|[|a]]; [split; reflexivity | split; reflexivity | lia].
  - reflexivity.
  - split; [exact Hout | exact Hsleeps].
Defined.

(** X2: for every upstream the calls of [search] are numbered 0, 1, ... with
    no gap, at most five of them; the sleeps are the powers of two 1, 2, 4,
    ... in this order, one per call or one fewer; and they add up to 31 at
    most. *)
Theorem search_backoff_is_bounded (ainvoke : nat -> outcome json) :
  exists n,
    (n <= 5)%nat
    /\ Retry.calls (snd (Retry.search ainvoke)) = seq 0 n
    /\ (Retry.sleeps (snd (Retry.search ainvoke))
        = map (fun a => 2 ^ Z.of_nat a) (seq 0 n)
        \/ Retry.sleeps (snd (Retry.search ainvoke))
           = map (fun a => 2 ^ Z.of_nat a) (seq 0 (n - 1)))
    /\ fold_right Z.add 0 (Retry.sleeps (snd (Retry.search ainvoke))) <= 31.
Proof.
  unfold Retry.search, Retry.max_retries.
  destruct (RetryShape.search_loop_shape ainvoke (seq 0 5) [])
    as [[_ Hrun] | (pre & k & rest & Heq & _ & _ & Hrun)].
  - exists 5%nat. rewrite Hrun. cbn [snd app].
    rewrite RetryShape.calls_retry_events, RetryShape.sleeps_retry_events.
    repeat split; [lia | left; reflexivity | cbn; lia].
  - pose proof (RetryShape.seq_prefix pre 0 5 (k :: rest) Heq) as Hpre.
    assert (Hlen : (List.length pre < 5)%nat).
    { apply (f_equal (@List.length nat)) in Heq.
      rewrite List.length_seq, List.length_app in Heq. cbn in Heq. lia. }
    pose proof (RetryShape.seq_middle pre 0 5 k rest Heq) as Hk. cbn [Nat.add] in Hk.
    remember (List.length pre) as n eqn:Hn. clear Hn. subst k pre.
    exists (S n). rewrite Hrun. cbn [snd app].
    rewrite RetryFacts.calls_app, RetryFacts.sleeps_app.
    rewrite RetryShape.calls_retry_events, RetryShape.sleeps_retry_events.
    cbn [Retry.calls Retry.sleeps flat_map app]. rewrite app_nil_r.
    repeat split.
    + lia.
    + rewrite seq_S. reflexivity.
    + right. cbn [Nat.sub]. rewrite Nat.sub_0_r. reflexivity.
    + rewrite RetryShape.backoff_total by lia.
      assert (2 ^ Z.of_nat n <= 2 ^ 5) by (apply Z.pow_le_mono_r; lia).
      lia.
Qed.

(** X3: an exception that leaves [search] was raised while the tool was
    built, before any upstream call, or it was raised by one of the five
    upstream calls and is not an overloaded error; and a result other than
    None was returned by one of those calls. *)
Theorem search_outcome_comes_from_upstream
  (setup : outcome unit) (ainvoke : nat -> outcome json) :
  (forall e, fst (search_from_config setup ainvoke) = Raises e ->
             setup = Raises e
             \/ (Retry.overloaded e = false
                 /\ exists k, (k < 5)%nat /\ ainvoke k = Raises e))
  /\ (forall r, fst (search_from_config setup ainvoke) = Returns r -> r <> JNull ->
                exists k, (k < 5)%nat /\ ainvoke k = Returns r)
  /\ (forall e, setup = Raises e ->
                search_from_config setup ainvoke = (Raises e, [])).
Proof.
  unfold search_from_config.
  destruct setup as [u|e0].
  - unfold Retry.search, Retry.max_retries.
    destruct (RetryShape.search_loop_shape ainvoke (seq 0 5) [])
      as [[_ Hrun] | (pre & k & rest & Heq & _ & Hdec & Hrun)];
      rewrite Hrun; cbn [fst].
    + split; [discriminate|]. split; [|discriminate].
      intros r Hr Hne. congruence.
    + assert (Hk : (k < 5)%nat).
      { assert (Hin : In k (seq 0 5)) by (rewrite Heq; apply in_elt).
        apply in_seq in Hin. lia. }
      split; [|split; [|discriminate]].
      * intros e He. right. rewrite He in Hdec. split; [exact Hdec|].
        exists k. split; assumption.
      * intros r Hr _. exists k. split; assumption.
  - cbn [fst]. split; [|split].
    + intros e He. left. congruence.
    + discriminate.
    + intros e He. congruence.
Qed.

Lemma search_outcome_comes_from_upstream_witness :
  Retry.overloaded (OtherError "connection reset") = false
  /\ exists k, (k < 5)%nat
               /\ More.third_time_fatal k = Raises (OtherError "connection reset").
Proof.
  destruct (search_outcome_comes_from_upstream (Returns tt) More.third_time_fatal)
    as [Hraise _].
  destruct (Hraise (OtherError "connection reset") eq_refl) as [Hsetup | Hcall].
  - discriminate Hsetup.
  - exact Hcall.
Defined.

(** ** The parser and the fetcher in general *)

(** X4: an exception leaves [parse_sbom] in two cases only: the text
    decodes to something that is not an object (an array, a number, a string,
    null), and the exception is AttributeError; or [json.loads] itself raises
    something other than JSONDecodeError, and that exception is passed on. *)
Theorem parse_sbom_exceptions
  (json_loads : string -> outcome json) (sbom : string) (e : exn) :
  fst (parse_sbom json_loads sbom) = Raises e
  <-> (e = AttributeError
       /\ exists v, json_loads sbom = Returns v /\ forall fields, v <> JObj fields)
      \/ (json_loads sbom = Raises e /\ e <> JSONDecodeError).
Proof.
  pose proof (parse_sbom_cases json_loads sbom) as Hc.
  destruct (json_loads sbom) as [v|e0] eqn:Hd.
  - destruct v as [| | | | | |fields];
      try (rewrite Hc; cbn [fst]; split;
           [ intros Hr; left; split;
             [congruence | eexists; split; [reflexivity | discriminate]]
           | intros [[-> _] | [Hr _]]; [reflexivity | discriminate] ]).
    assert (Hret : exists r, fst (parse_sbom json_loads sbom) = Returns r).
    { destruct (dict_get "components" fields) as [[| | | | | |]|];
        rewrite Hc; eexists; reflexivity. }
    destruct Hret as [r Hr]. rewrite Hr. split; [discriminate|].
    intros [(_ & v & Hv & Hno) | [Hr' _]]; [|discriminate].
    injection Hv as <-. exfalso. apply (Hno fields). reflexivity.
  - split.
    + intros Hr. right.
      destruct e0; rewrite Hc in Hr; cbn [fst] in Hr;
        try discriminate; (split; [congruence | congruence]).
    + intros [(_ & v & Hv & _) | [Hr Hne]]; [discriminate|].
      injection Hr as ->.
      rewrite (parse_sbom_decoder_raises json_loads sbom e Hd Hne). reflexivity.
Qed.

(** X5: a value returned by [parse_sbom] is None or a list, and a list it
    returns is the [components] entry of the decoded object, or the empty
    list when the object has no such entry. *)
Theorem parse_sbom_returns_none_or_list
  (json_loads : string -> outcome json) (sbom : string) (v : json)
  (Hret : fst (parse_sbom json_loads sbom) = Returns v) :
  v = JNull
  \/ exists items fields,
       v = JArr items
       /\ json_loads sbom = Returns (JObj fields)
       /\ (dict_get "components" fields = Some (JArr items)
           \/ (dict_get "components" fields = None /\ items = [])).
Proof.
  pose proof (parse_sbom_cases json_loads sbom) as Hc.
  destruct (json_loads sbom) as [[| | | | | |fields]|[]] eqn:Hd;
    try (rewrite Hc in Hret; cbn [fst] in Hret; discriminate);
    try (rewrite Hc in Hret; cbn [fst] in Hret; left; congruence).
  destruct (dict_get "components" fields) as [[| | | | |items|]|] eqn:Hf;
    rewrite Hc in Hret; cbn [fst] in Hret;
    try (left; congruence).
  - right. exists items, fields.
    split; [congruence|]. split; [reflexivity|]. left. exact Hf.
  - right. exists [], fields.
    split; [congruence|]. split; [reflexivity|]. right. split; [exact Hf | reflexivity].
Qed.

Lemma parse_sbom_returns_none_or_list_witness :
  exists items fields,
    JArr [Sample.django; JInt 7] = JArr items
    /\ Sample.loads Sample.sbom_two = Returns (JObj fields)
    /\ (dict_get "components" fields = Some (JArr items)
        \/ (dict_get "components" fields = None /\ items = [])).
Proof.
  destruct (parse_sbom_returns_none_or_list Sample.loads Sample.sbom_two
              (JArr [Sample.django; JInt 7]) eq_refl) as [Hnone|Hlist].
  - discriminate Hnone.
  - exact Hlist.
Defined.

(** X6: [fetch_eol_data] gives None when the request fails with a
    ClientError and for every status other than 200, whatever the body; data
    other than None is the decoded body of a 200 reply; and a ClientError
    never leaves it. *)
Theorem fetch_eol_data_outcomes
  (py_repr : json -> string) (http_get : nat -> string -> http_result)
  (i : nat) (framework : json) :
  (http_get i (url_of py_repr framework) = HttpFailure ->
   fetch_eol_data py_repr http_get i framework = Returns JNull)
  /\ (forall status body,
        http_get i (url_of py_repr framework) = HttpResponse status body ->
        status <> 200 ->
        fetch_eol_data py_repr http_get i framework = Returns JNull)
  /\ (forall data,
        fetch_eol_data py_repr http_get i framework = Returns data ->
        data <> JNull ->
        http_get i (url_of py_repr framework) = HttpResponse 200 (Returns data))
  /\ fetch_eol_data py_repr http_get i framework <> Raises ClientError.
Proof.
  unfold fetch_eol_data.
  destruct (http_get i (url_of py_repr framework)) as [|status body].
  - repeat split; try discriminate; congruence.
  - destruct (Z.eqb_spec status 200) as [->|Hne].
    + destruct body as [data|[]]; repeat split; try discriminate; try congruence.
    + repeat split; try discriminate; congruence.
Qed.

Lemma fetch_eol_data_outcomes_witness :
  fetch_eol_data Sample.repr Sample.feed 0 (JStr "express") = Returns JNull
  /\ Sample.feed 0 (url_of Sample.repr (JStr "django"))
     = HttpResponse 200 (Returns Sample.table).
Proof.
  destruct (fetch_eol_data_outcomes Sample.repr Sample.feed 0 (JStr "express"))
    as (_ & Hstatus & _).
  destruct (fetch_eol_data_outcomes Sample.repr Sample.feed 0 (JStr "django"))
    as (_ & _ & Hdata & _).
  split.
  - apply (Hstatus 404 (Raises ClientError)); [reflexivity | discriminate].
  - apply Hdata; [reflexivity | discriminate].
Defined.

(** ** The loop of check_eol_dates in general *)

Section EngineMore.

Variable py_repr : json -> string.
Variable http_get : nat -> string -> http_result.
Variable now : nat -> datetime.

Local Abbreviation check_framework := (check_framework py_repr http_get now).
Local Abbreviation check_loop := (check_loop py_repr http_get now).
Local Abbreviation check_eol_dates := (check_eol_dates py_repr http_get now).
Local Abbreviation version_data_of := (version_data_of py_repr http_get).
Local Abbreviation fetch_eol_data := (fetch_eol_data py_repr http_get).
Local Abbreviation judge := (judge now).
Local Abbreviation past_due := (past_due py_repr http_get now).

(** An iteration that appends nothing lets the call go on. *)
Lemma check_eol_dates_skip (pre post : list json) (c : json) (ups : list json) :
  check_loop 0 pre [] = Returns ups ->
  check_framework (List.length pre) c = Returns [] ->
  check_eol_dates (JArr (pre ++ c :: post))
  = (r <- check_loop (S (List.length pre)) post ups ;; Returns (JArr r)).
Proof.
  intros Hpre Hskip.
  rewrite (check_eol_dates_split _ _ _ pre post c ups Hpre), Hskip.
  cbn [bind]. rewrite app_nil_r. reflexivity.
Qed.

(** An iteration that raises ends the call. *)
Lemma check_eol_dates_abort (pre post : list json) (c : json) (ups : list json) (e : exn) :
  check_loop 0 pre [] = Returns ups ->
  check_framework (List.length pre) c = Raises e ->
  check_eol_dates (JArr (pre ++ c :: post)) = Raises e.
Proof.
  intros Hpre Hraise.
  rewrite (check_eol_dates_split _ _ _ pre post c ups Hpre), Hraise. reflexivity.
Qed.

Lemma find_cycle_in (items : list json) (major : string) (fields : list (string * json)) :
  find_cycle items major = Returns (JObj fields) -> In (JObj fields) items.
Proof.
  induction items as [|item items IH]; simpl; [discriminate|].
  destruct (py_getitem item "cycle") as [c|e]; simpl; [|discriminate].
  destruct (eq_str c major).
  - intros Heq. left. congruence.
  - intros Hrest. right. apply IH. exact Hrest.
Qed.

Lemma find_cycle_none (items : list json) (major : string) :
  Forall (other_cycle major) items -> find_cycle items major = Returns JNull.
Proof.
  induction 1 as [|item items (cyc & Hcyc & Hne) _ IH]; [reflexivity|].
  cbn [find_cycle]. rewrite Hcyc. cbn [bind]. rewrite Hne. exact IH.
Qed.

(** The entry matched for a component was found by the scan of its table. *)
Lemma version_data_of_found (i : nat) (c : json) (fields : list (string * json)) :
  version_data_of i c = Returns (JObj fields) ->
  exists name version major eol_data items,
    py_getitem c "name" = Returns name
    /\ py_getitem c "version" = Returns version
    /\ major_of version = Returns major
    /\ fetch_eol_data i name = Returns eol_data
    /\ py_iter eol_data = Returns items
    /\ find_cycle items major = Returns (JObj fields).
Proof.
  unfold version_data_of.
  destruct (py_getitem c "name") as [name|e]; cbn [bind]; [|discriminate].
  destruct (py_getitem c "version") as [version|e]; cbn [bind]; [|discriminate].
  destruct (major_of version) as [major|e] eqn:Hmajor; cbn [bind]; [|discriminate].
  destruct (fetch_eol_data i name) as [eol_data|e] eqn:Hfetch; cbn [bind]; [|discriminate].
  destruct (truthy eol_data); [|discriminate].
  destruct (py_iter eol_data) as [items|e] eqn:Hiter; cbn [bind]; [|discriminate].
  intros Hfind. exists name, version, major, eol_data, items.
  repeat split; try reflexivity; assumption.
Qed.

(** What the decision can append: nothing, or the one recommendation. *)
Lemma judge_shape (i : nat) (name version eol_data version_data : json)
      (added : list json) :
  judge i name version eol_data version_data = Returns added ->
  added = []
  \/ exists s cycle eol,
       added = [recommendation name version (JStr s) cycle eol].
Proof.
  unfold judge. intros Hj.
  destruct (truthy version_data); [|left; congruence].
  destruct (get_eol version_data) as [eol_date_str|e]; cbn [bind] in Hj; [|discriminate].
  destruct eol_date_str as [| | | |s| |]; try (left; congruence).
  destruct (strptime_exn s) as [d|e]; cbn [bind] in Hj; [|discriminate].
  destruct (dt_ltb d (now i)); [|left; congruence].
  destruct (py_iter eol_data) as [items|e]; cbn [bind] in Hj; [|discriminate].
  destruct (py_max items) as [latest|e]; cbn [bind] in Hj; [|discriminate].
  destruct (py_getitem latest "cycle") as [cycle|e]; cbn [bind] in Hj; [|discriminate].
  destruct (py_getitem latest "eol") as [eol|e]; cbn [bind] in Hj; [|discriminate].
  right. exists s, cycle, eol. congruence.
Qed.

(** On a past-due entry the decision, when it returns, has appended. *)
Lemma judge_due (i : nat) (name version eol_data : json)
      (fields : list (string * json)) (s : string) (d : datetime) (added : list json) :
  fields <> [] ->
  py_get fields "eol" = JStr s ->
  strptime s = Some d ->
  dt_ltb d (now i) = true ->
  judge i name version eol_data (JObj fields) = Returns added ->
  added <> [].
Proof.
  intros Hne Heol Hdate Hpast. unfold judge.
  destruct fields as [|kv fields]; [congruence|].
  cbn [truthy get_eol bind]. rewrite Heol.
  unfold strptime_exn. rewrite Hdate. cbn [bind]. rewrite Hpast.
  destruct (py_iter eol_data) as [items|e]; cbn [bind]; [|discriminate].
  destruct (py_max items) as [latest|e]; cbn [bind]; [|discriminate].
  destruct (py_getitem latest "cycle") as [cycle|e]; cbn [bind]; [|discriminate].
  destruct (py_getitem latest "eol") as [eol|e]; cbn [bind]; [|discriminate].
  intros Heq. injection Heq as <-. discriminate.
Qed.

Lemma concat_short (per : list (list json)) :
  Forall (fun a => (List.length a <= 1)%nat) per ->
  (List.length (List.concat per) <= List.length per)%nat.
Proof.
  induction 1 as [|a per Ha _ IH]; [apply Nat.le_refl|].
  cbn [List.concat]. rewrite List.length_app. cbn [List.length]. lia.
Qed.

(** The loop returns its [upgrades] extended, in order, by what each
    iteration appended. *)
Lemma check_loop_concat (items : list json) :
  forall (i : nat) (upgrades result : list json),
    check_loop i items upgrades = Returns result ->
    exists per,
      result = upgrades ++ List.concat per
      /\ List.length per = List.length items
      /\ forall j c, nth_error items j = Some c ->
                     exists a, nth_error per j = Some a
                               /\ check_framework (i + j) c = Returns a.
Proof.
  induction items as [|c items IH]; intros i upgrades result Hrun.
  - exists []. cbn in Hrun. injection Hrun as <-.
    rewrite app_nil_r. repeat split. intros [|j] c Hc; discriminate.
  - rewrite check_loop_cons in Hrun.
    destruct (check_framework i c) as [a|e] eqn:Hc; cbn [bind] in Hrun; [|discriminate].
    destruct (IH (S i) (upgrades ++ a) result Hrun) as (per & Hres & Hlen & Hper).
    exists (a :: per). cbn [List.concat List.length]. repeat split.
    + rewrite Hres, <- app_assoc. reflexivity.
    + rewrite Hlen. reflexivity.
    + intros [|j] c' Hc'; cbn [nth_error] in *.
      * injection Hc' as <-. exists a. rewrite Nat.add_0_r. split; [reflexivity | exact Hc].
      * destruct (Hper j c' Hc') as (a' & Ha' & Hrun').
        exists a'. split; [exact Ha'|].
        rewrite Nat.add_succ_r, <- Nat.add_succ_l. exact Hrun'.
Qed.

(** X7: a recommendation is emitted exactly for a past-due component, and
    it carries that component's own name and version: when an iteration
    returns, it has appended nothing and the component is not past due, or
    the component is past due and it has appended the single recommendation
    built from the component's ["name"] and ["version"]. *)
Theorem recommendation_iff_past_due
  (i : nat) (c : json) (added : list json)
  (Hrun : check_framework i c = Returns added) :
  (added = [] /\ ~ past_due i c)
  \/ (past_due i c
      /\ exists name version s cycle eol,
           py_getitem c "name" = Returns name
           /\ py_getitem c "version" = Returns version
           /\ added = [recommendation name version (JStr s) cycle eol]).
Proof.
  pose proof (check_framework_via_version_data py_repr http_get now i c) as Hvia.
  destruct (version_data_of i c) as [vd|e] eqn:Hvd; [|congruence].
  destruct Hvia as (name & version & eol_data & Hname & Hversion & _ & _ & Hbody).
  rewrite Hbody in Hrun.
  destruct (judge_shape _ _ _ _ _ _ Hrun) as [->|(s & cycle & eol & ->)].
  - left. split; [reflexivity|].
    intros (fields & s & d & Hvd' & Heol & Hdate & Hpast).
    rewrite Hvd in Hvd'. injection Hvd' as ->.
    refine (judge_due _ _ _ _ _ _ _ _ _ Heol Hdate Hpast Hrun eq_refl).
    eapply version_data_of_obj. exact Hvd.
  - right. split.
    + eapply check_framework_appends; [rewrite Hbody; exact Hrun | discriminate].
    + exists name, version, s, cycle, eol. repeat split; assumption.
Qed.

(** X8: the recommendations come in the order of the components, at most
    one for each: the list returned is the concatenation, in input order, of
    what the single iterations appended, so it is never longer than the
    input. *)
Theorem upgrades_follow_component_order
  (items ups : list json)
  (Hrun : check_eol_dates (JArr items) = Returns (JArr ups)) :
  (exists per,
     ups = List.concat per
     /\ List.length per = List.length items
     /\ forall j c, nth_error items j = Some c ->
                    exists a, nth_error per j = Some a
                              /\ check_framework j c = Returns a
                              /\ (List.length a <= 1)%nat)
  /\ (List.length ups <= List.length items)%nat.
Proof.
  destruct items as [|c0 rest]; [discriminate|].
  rewrite check_eol_dates_nonempty in Hrun.
  destruct (check_loop 0 (c0 :: rest) []) as [result|e] eqn:Hloop;
    cbn [bind] in Hrun; [|discriminate].
  injection Hrun as ->.
  destruct (check_loop_concat _ _ _ _ Hloop) as (per & Hres & Hlen & Hper).
  cbn [app] in Hres.
  assert (Hshort : forall j c, nth_error (c0 :: rest) j = Some c ->
                     exists a, nth_error per j = Some a
                               /\ check_framework j c = Returns a
                               /\ (List.length a <= 1)%nat).
  { intros j c Hc. destruct (Hper j c Hc) as (a & Ha & Hrun).
    exists a. repeat split; try assumption.
    pose proof (check_framework_via_version_data py_repr http_get now j c) as Hvia.
    cbn [Nat.add] in Hrun.
    destruct (version_data_of j c) as [vd|e] eqn:Hvd; [|congruence].
    destruct Hvia as (name & version & eol_data & _ & _ & _ & _ & Hbody).
    rewrite Hbody in Hrun.
    destruct (judge_shape _ _ _ _ _ _ Hrun) as [->|(s & cycle & eol & ->)];
      cbn; lia. }
  split.
  - exists per. repeat split; assumption.
  - subst ups. rewrite <- Hlen. apply concat_short.
    apply Forall_forall. intros a Ha.
    destruct (In_nth_error _ _ Ha) as [j Hj].
    assert (Hj' : (j < List.length (c0 :: rest))%nat).
    { rewrite <- Hlen. apply nth_error_Some. congruence. }
    destruct (nth_error (c0 :: rest) j) as [c|] eqn:Hc;
      [|apply nth_error_None in Hc; lia].
    destruct (Hshort j c Hc) as (a' & Ha' & _ & Hle).
    rewrite Hj in Ha'. injection Ha' as <-. exact Hle.
Qed.

(** X9: a component whose major version matches no cycle of its table gets
    no recommendation and raises nothing: when every entry carries a
    ["cycle"] different from the text before the first dot of the version,
    the iteration appends nothing and the call goes on with the components
    after it. *)
Theorem unmatched_cycle_is_skipped
  (pre post : list json) (c name : json) (version : string)
  (items ups : list json)
  (Hpre : check_loop 0 pre [] = Returns ups)
  (Hname : py_getitem c "name" = Returns name)
  (Hversion : py_getitem c "version" = Returns (JStr version))
  (Hfeed : fetch_eol_data (List.length pre) name = Returns (JArr items))
  (Hother : Forall (other_cycle (before_dot version)) items) :
  check_framework (List.length pre) c = Returns []
  /\ check_eol_dates (JArr (pre ++ c :: post))
     = (r <- check_loop (S (List.length pre)) post ups ;; Returns (JArr r)).
Proof.
  assert (Hskip : check_framework (List.length pre) c = Returns []).
  { unfold check_framework. rewrite Hname, Hversion. cbn [bind major_of].
    rewrite Hfeed. cbn [bind].
    destruct items as [|item items]; [reflexivity|].
    cbn [truthy py_iter bind]. rewrite (find_cycle_none _ _ Hother). reflexivity. }
  split; [exact Hskip|]. apply check_eol_dates_skip; assumption.
Qed.

(** X10: a failed fetch touches one component only: when the request fails
    or is answered with a status other than 200, the component, whose record
    has a name and a string version, is skipped and the call goes on with the
    components after it. *)
Theorem failed_fetch_is_skipped
  (pre post : list json) (c name : json) (version : string) (ups : list json)
  (Hpre : check_loop 0 pre [] = Returns ups)
  (Hname : py_getitem c "name" = Returns name)
  (Hversion : py_getitem c "version" = Returns (JStr version))
  (Hfail : http_get (List.length pre) (url_of py_repr name) = HttpFailure
           \/ exists status body,
                http_get (List.length pre) (url_of py_repr name)
                = HttpResponse status body
                /\ status <> 200) :
  check_framework (List.length pre) c = Returns []
  /\ check_eol_dates (JArr (pre ++ c :: post))
     = (r <- check_loop (S (List.length pre)) post ups ;; Returns (JArr r)).
Proof.
  assert (Hnone : fetch_eol_data (List.length pre) name = Returns JNull).
  { unfold fetch_eol_data.
    destruct Hfail as [-> | (status & body & -> & Hne)]; [reflexivity|].
    destruct (Z.eqb_spec status 200); [contradiction | reflexivity]. }
  assert (Hskip : check_framework (List.length pre) c = Returns []).
  { unfold check_framework. rewrite Hname, Hversion. cbn [bind major_of].
    rewrite Hnone. reflexivity. }
  split; [exact Hskip|]. apply check_eol_dates_skip; assumption.
Qed.

(** X11: a component that is no dict makes the call raise TypeError, and a
    component whose ["version"] is not a string makes it raise
    AttributeError, in both cases whatever the feed would answer. *)
Theorem malformed_component_raises
  (pre post : list json) (c : json) (ups : list json)
  (Hpre : check_loop 0 pre [] = Returns ups) :
  ((forall fields, c <> JObj fields) ->
   check_eol_dates (JArr (pre ++ c :: post)) = Raises TypeError)
  /\ (forall name version,
        py_getitem c "name" = Returns name ->
        py_getitem c "version" = Returns version ->
        is_str version = false ->
        check_eol_dates (JArr (pre ++ c :: post)) = Raises AttributeError).
Proof.
  split.
  - intros Hno. apply (check_eol_dates_abort pre post c ups); [exact Hpre|].
    unfold check_framework.
    destruct c as [| | | | | |fields]; try reflexivity.
    exfalso. apply (Hno fields). reflexivity.
  - intros name version Hname Hversion Hns.
    apply (check_eol_dates_abort pre post c ups); [exact Hpre|].
    unfold check_framework. rewrite Hname, Hversion. cbn [bind].
    destruct version; try reflexivity. discriminate.
Qed.

(** X12: a reply of the feed that has a truth value but is no list, such as
    a JSON object with an error message, makes the call raise TypeError
    instead of being taken as "no data". *)
Theorem non_list_feed_raises
  (pre post : list json) (c name : json) (version : string)
  (eol_data : json) (ups : list json)
  (Hpre : check_loop 0 pre [] = Returns ups)
  (Hname : py_getitem c "name" = Returns name)
  (Hversion : py_getitem c "version" = Returns (JStr version))
  (Hfeed : fetch_eol_data (List.length pre) name = Returns eol_data)
  (Htruthy : truthy eol_data = true)
  (Hnolist : is_list eol_data = false) :
  check_eol_dates (JArr (pre ++ c :: post)) = Raises TypeError.
Proof.
  apply (check_eol_dates_abort pre post c ups); [exact Hpre|].
  unfold check_framework. rewrite Hname, Hversion. cbn [bind major_of].
  rewrite Hfeed. cbn [bind]. rewrite Htruthy.
  destruct eol_data as [| | | |s|items|fields]; try discriminate; try reflexivity.
  - destruct s as [|ch s]; [discriminate | reflexivity].
  - destruct fields as [|[k v] fields]; [discriminate | reflexivity].
Qed.

(** X13: the scan for the cycle stops at the first entry that matches: the
    entries before it must carry another ["cycle"], the entries after it are
    not looked at, whatever they are. *)
Theorem find_cycle_first_match
  (before after : list json) (item cyc : json) (major : string)
  (Hbefore : Forall (other_cycle major) before)
  (Hcycle : py_getitem item "cycle" = Returns cyc)
  (Hmatch : eq_str cyc major = true) :
  find_cycle (before ++ item :: after) major = Returns item.
Proof.
  induction Hbefore as [|x before (c & Hc & Hne) _ IH].
  - cbn [app find_cycle]. rewrite Hcycle. cbn [bind]. rewrite Hmatch. reflexivity.
  - cbn [app find_cycle]. rewrite Hc. cbn [bind]. rewrite Hne. exact IH.
Qed.

(** X14: the suggested cycle never ends before the cycle the component is
    on: for a past-due component whose table entries all have a key and a
    ["cycle"], the key of the suggested entry is not earlier than the end
    date of the matched entry. *)
Theorem suggestion_not_earlier
  (i : nat) (c name : json) (items : list json)
  (fields : list (string * json)) (s : string) (d : datetime)
  (Hmatch : version_data_of i c = Returns (JObj fields))
  (Heol : py_get fields "eol" = JStr s)
  (Hdate : strptime s = Some d)
  (Hpast : dt_ltb d (now i) = true)
  (Hname : py_getitem c "name" = Returns name)
  (Hfeed : fetch_eol_data i name = Returns (JArr items))
  (Hkeyed : Forall keyed items)
  (Hcycles : Forall (fun v => exists cyc, py_getitem v "cycle" = Returns cyc) items) :
  exists winner K version cycle eol,
    In winner items
    /\ eol_key winner = Returns K
    /\ dt_le d K
    /\ py_getitem winner "cycle" = Returns cycle
    /\ py_getitem winner "eol" = Returns eol
    /\ check_framework i c
       = Returns [recommendation name version (JStr s) cycle eol].
Proof.
  destruct (version_data_of_found _ _ _ Hmatch)
    as (name' & version & major & eol_data & items' & Hname' & Hversion & Hmajor
        & Hfeed' & Hiter & Hfind).
  rewrite Hname in Hname'. injection Hname' as <-.
  rewrite Hfeed in Hfeed'. injection Hfeed' as <-.
  cbn [py_iter] in Hiter. injection Hiter as <-.
  pose proof (find_cycle_in _ _ _ Hfind) as Hin.
  pose proof (find_cycle_obj _ _ _ Hfind) as Hne.
  assert (Hitems : items <> []) by (intros ->; contradiction).
  destruct (py_max_first_max items Hitems Hkeyed) as (n & winner & K & Hmax & Hfm).
  destruct Hfm as (Hn & HK & Hall & _).
  assert (Hwin : In winner items) by (eapply nth_error_In; exact Hn).
  destruct (proj1 (Forall_forall _ _) Hcycles winner Hwin) as [cycle Hcycle].
  destruct (eol_key_subscript winner K HK) as [eol Hweol].
  assert (Hkey : eol_key (JObj fields) = Returns d).
  { unfold eol_key, py_getitem. unfold py_get in Heol.
    destruct (dict_get "eol" fields) as [x|]; [|discriminate].
    subst x. cbn [bind]. unfold strptime_exn. rewrite Hdate. reflexivity. }
  destruct (In_nth_error _ _ Hin) as [m Hm].
  exists winner, K, version, cycle, eol.
  repeat split; try assumption.
  - exact (Hall m (JObj fields) d Hm Hkey).
  - unfold check_framework. rewrite Hname, Hversion. cbn [bind]. rewrite Hmajor.
    cbn [bind]. rewrite Hfeed. cbn [bind].
    destruct items as [|it0 items0]; [congruence|].
    cbn [truthy py_iter bind]. rewrite Hfind. cbn [bind]. unfold judge.
    destruct fields as [|kv fields0]; [congruence|].
    cbn [truthy get_eol bind]. rewrite Heol.
    unfold strptime_exn. rewrite Hdate. cbn [bind]. rewrite Hpast.
    cbn [py_iter bind]. rewrite Hmax. cbn [bind]. rewrite Hcycle, Hweol.
    reflexivity.
Qed.

Lemma max_loop_raises (before after : list json) (v : json) (e : exn) :
  Forall keyed before ->
  eol_key v = Raises e ->
  forall best K, max_loop (before ++ v :: after) best K = Raises e.
Proof.
  intros Hkeyed Hv.
  induction Hkeyed as [|x before [k Hk] _ IH]; intros best K.
  - cbn [app max_loop]. rewrite Hv. reflexivity.
  - cbn [app max_loop]. rewrite Hk. cbn [bind].
    destruct (dt_ltb K k); apply IH.
Qed.

Lemma py_max_raises (before after : list json) (v : json) (e : exn) :
  Forall keyed before ->
  eol_key v = Raises e ->
  py_max (before ++ v :: after) = Raises e.
Proof.
  intros Hkeyed Hv. destruct Hkeyed as [|x before [k Hk] Hrest].
  - cbn [app py_max]. rewrite Hv. reflexivity.
  - cbn [app py_max]. rewrite Hk. cbn [bind].
    apply max_loop_raises; assumption.
Qed.

Lemma key_fails_raises (v : json) (e : exn) :
  key_fails v e -> eol_key v = Raises e.
Proof.
  intros [[Hno ->] | [(fields & -> & Hnone & ->) | (fields & s & -> & Hs & _ & Hbad & ->)]].
  - destruct v as [| | | | | |fields]; try reflexivity.
    exfalso. apply (Hno fields). reflexivity.
  - unfold eol_key, py_getitem. rewrite Hnone. reflexivity.
  - unfold eol_key, py_getitem. rewrite Hs. cbn [bind].
    unfold strptime_exn. rewrite Hbad. reflexivity.
Qed.

(** X16: for a past-due component the key of every table entry is computed,
    in table order, and the first entry whose key cannot be computed ends the
    call with its exception: TypeError for an entry that is no dict, KeyError
    for an entry without ["eol"], ValueError for an ["eol"] that is a text of
    ASCII characters and no date. *)
Theorem table_key_error_aborts
  (pre post : list json) (c name : json)
  (before after : list json) (v : json)
  (fields : list (string * json)) (s : string) (d : datetime)
  (ups : list json) (e : exn)
  (Hpre : check_loop 0 pre [] = Returns ups)
  (Hmatch : version_data_of (List.length pre) c = Returns (JObj fields))
  (Heol : py_get fields "eol" = JStr s)
  (Hdate : strptime s = Some d)
  (Hpast : dt_ltb d (now (List.length pre)) = true)
  (Hname : py_getitem c "name" = Returns name)
  (Hfeed : fetch_eol_data (List.length pre) name = Returns (JArr (before ++ v :: after)))
  (Hkeyed : Forall keyed before)
  (Hbad : key_fails v e) :
  check_eol_dates (JArr (pre ++ c :: post)) = Raises e.
Proof.
  apply (check_eol_dates_abort pre post c ups); [exact Hpre|].
  pose proof (check_framework_via_version_data py_repr http_get now
                (List.length pre) c) as Hvia.
  rewrite Hmatch in Hvia.
  destruct Hvia as (name' & version & eol_data & Hname' & _ & Hfeed' & _ & Hbody).
  rewrite Hname in Hname'. injection Hname' as <-.
  rewrite Hfeed in Hfeed'. injection Hfeed' as <-.
  pose proof (version_data_of_obj _ _ _ _ _ Hmatch) as Hne.
  rewrite Hbody. unfold judge.
  destruct fields as [|kv fields0]; [congruence|].
  cbn [truthy get_eol bind]. rewrite Heol.
  unfold strptime_exn. rewrite Hdate. cbn [bind]. rewrite Hpast.
  cbn [py_iter bind].
  rewrite (py_max_raises before after v e Hkeyed (key_fails_raises v e Hbad)).
  reflexivity.
Qed.

(** X17: the comparison with the clock is strict: a matched cycle whose
    end date parses and is not before the clock reading, the very instant of
    that midnight included, gives no recommendation; nothing else of the
    table is then examined, and the call goes on. *)
Theorem cycle_not_yet_ended_is_skipped
  (pre post : list json) (c : json)
  (fields : list (string * json)) (s : string) (d : datetime) (ups : list json)
  (Hpre : check_loop 0 pre [] = Returns ups)
  (Hmatch : version_data_of (List.length pre) c = Returns (JObj fields))
  (Heol : py_get fields "eol" = JStr s)
  (Hdate : strptime s = Some d)
  (Hnotyet : dt_le (now (List.length pre)) d) :
  check_framework (List.length pre) c = Returns []
  /\ check_eol_dates (JArr (pre ++ c :: post))
     = (r <- check_loop (S (List.length pre)) post ups ;; Returns (JArr r)).
Proof.
  assert (Hskip : check_framework (List.length pre) c = Returns []).
  { pose proof (check_framework_via_version_data py_repr http_get now
                  (List.length pre) c) as Hvia.
    rewrite Hmatch in Hvia.
    destruct Hvia as (name & version & eol_data & _ & _ & _ & _ & Hbody).
    pose proof (version_data_of_obj _ _ _ _ _ Hmatch) as Hne.
    rewrite Hbody. unfold judge.
    destruct fields as [|kv fields0]; [congruence|].
    cbn [truthy get_eol bind]. rewrite Heol.
    unfold strptime_exn. rewrite Hdate. cbn [bind].
    unfold dt_le in Hnotyet. rewrite Hnotyet. reflexivity. }
  split; [exact Hskip|].
  apply check_eol_dates_skip; assumption.
Qed.

End EngineMore.

(** X15: the major version is the text before the first dot: a version
    without a dot is its own major version, and putting a dot and anything
    else behind a dot-free text leaves that text as the major version. *)
Theorem major_is_text_before_first_dot (a b : string)
  (Hnodot : has_dot a = false) :
  major_of (JStr a) = Returns a
  /\ major_of (JStr (a ++ String "."%char b)) = Returns a
  /\ (forall v, has_dot (before_dot v) = false).
Proof.
  assert (Hown : forall s, has_dot s = false -> before_dot s = s).
  { induction s as [|ch s IH]; [reflexivity|]. cbn [has_dot before_dot].
    destruct (Ascii.eqb ch "."); [discriminate|]. cbn [orb].
    intros Hs. rewrite (IH Hs). reflexivity. }
  assert (Hcut : forall s, has_dot s = false ->
                           before_dot (s ++ String "."%char b) = s).
  { induction s as [|ch s IH]; [reflexivity|]. cbn [has_dot].
    change (String ch s ++ String "."%char b)%string
      with (String ch (s ++ String "."%char b)%string).
    cbn [before_dot].
    destruct (Ascii.eqb ch "."); [discriminate|]. cbn [orb].
    intros Hs. rewrite (IH Hs). reflexivity. }
  split; [|split].
  - cbn [major_of]. rewrite (Hown a Hnodot). reflexivity.
  - cbn [major_of]. rewrite (Hcut a Hnodot). reflexivity.
  - induction v as [|ch v IH]; [reflexivity|]. cbn [before_dot].
    destruct (Ascii.eqb ch ".") eqn:Hch; [reflexivity|].
    cbn [has_dot]. rewrite Hch. exact IH.
Qed.

(** ** The further properties on the sample feed *)

Lemma recommendation_iff_past_due_witness : OnSample.due 0 Sample.django.
Proof.
  destruct (recommendation_iff_past_due Sample.repr Sample.feed Sample.clock
              0 Sample.django [Sample.django_upgrade] eq_refl)
    as [[Hnil _] | [Hdue _]].
  - discriminate Hnil.
  - exact Hdue.
Defined.

Lemma upgrades_follow_component_order_witness :
  (List.length [Sample.django_upgrade; Sample.django_upgrade]
   <= List.length [Sample.django; Sample.flask; Sample.django])%nat.
Proof.
  apply (upgrades_follow_component_order Sample.repr Sample.feed Sample.clock
           [Sample.django; Sample.flask; Sample.django]
           [Sample.django_upgrade; Sample.django_upgrade]).
  reflexivity.
Defined.

Lemma unmatched_cycle_is_skipped_witness :
  More.run [More.django3; Sample.django] = Returns (JArr [Sample.django_upgrade]).
Proof.
  destruct (unmatched_cycle_is_skipped Sample.repr More.feed Sample.clock
              [] [Sample.django] More.django3 (JStr "django") "3.1"
              [JObj [("cycle", JStr "1"); ("eol", JStr "2023-12-31")];
               JObj [("cycle", JStr "2"); ("eol", JStr "2025-12-31")]]
              [] eq_refl eq_refl eq_refl eq_refl) as [_ Hrun].
  - repeat constructor; eexists; split; reflexivity.
  - etransitivity; [exact Hrun | reflexivity].
Defined.

Lemma failed_fetch_is_skipped_witness :
  More.run [Sample.django; More.express; Sample.django]
  = Returns (JArr [Sample.django_upgrade; Sample.django_upgrade]).
Proof.
  destruct (failed_fetch_is_skipped Sample.repr More.feed Sample.clock
              [Sample.django] [Sample.django] More.express (JStr "express") "4.18.2"
              [Sample.django_upgrade] eq_refl eq_refl eq_refl) as [_ Hrun].
  - right. exists 404, (Raises ClientError). split; [reflexivity | discriminate].
  - etransitivity; [exact Hrun | reflexivity].
Defined.

Lemma malformed_component_raises_witness :
  More.run [Sample.django; JInt 7; Sample.django] = Raises TypeError
  /\ More.run [Sample.django; More.numbered] = Raises AttributeError.
Proof.
  split.
  - destruct (malformed_component_raises Sample.repr More.feed Sample.clock
                [Sample.django] [Sample.django] (JInt 7) [Sample.django_upgrade]
                eq_refl) as [Hshape _].
    apply Hshape. discriminate.
  - destruct (malformed_component_raises Sample.repr More.feed Sample.clock
                [Sample.django] [] More.numbered [Sample.django_upgrade]
                eq_refl) as [_ Hversion].
    apply (Hversion (JStr "django") (JInt 1)); reflexivity.
Defined.

Lemma non_list_feed_raises_witness :
  More.run [More.ghost; Sample.django] = Raises TypeError.
Proof.
  apply (non_list_feed_raises Sample.repr More.feed Sample.clock
           [] [Sample.django] More.ghost (JStr "ghost") "1.0"
           More.not_found_body []); reflexivity.
Defined.

Lemma find_cycle_first_match_witness :
  find_cycle [JObj [("cycle", JStr "1")];
              JObj [("cycle", JStr "2"); ("eol", JStr "2025-12-31")];
              JObj [("cycle", JStr "2"); ("eol", JBool false)];
              JInt 5] "2"
  = Returns (JObj [("cycle", JStr "2"); ("eol", JStr "2025-12-31")]).
Proof.
  apply (find_cycle_first_match
           [JObj [("cycle", JStr "1")]]
           [JObj [("cycle", JStr "2"); ("eol", JBool false)]; JInt 5]
           (JObj [("cycle", JStr "2"); ("eol", JStr "2025-12-31")])
           (JStr "2") "2").
  - repeat constructor. exists (JStr "1"). split; reflexivity.
  - reflexivity.
  - reflexivity.
Defined.

Lemma suggestion_not_earlier_witness :
  exists winner K,
    eol_key winner = Returns K
    /\ dt_le (mk_datetime 2023 12 31 0 0 0 0) K.
Proof.
  destruct (suggestion_not_earlier Sample.repr Sample.feed Sample.clock
              0 Sample.vue (JStr "vue")
              [JObj [("cycle", JStr "1"); ("eol", JStr "2023-12-31")];
               JObj [("cycle", JStr "2"); ("eol", JBool false)];
               JObj [("cycle", JStr "3"); ("eol", JBool false)]]
              [("cycle", JStr "1"); ("eol", JStr "2023-12-31")]
              "2023-12-31" (mk_datetime 2023 12 31 0 0 0 0)
              eq_refl eq_refl eq_refl eq_refl eq_refl eq_refl)
    as (winner & K & _ & _ & _ & _ & HK & Hle & _).
  - repeat constructor; eexists; reflexivity.
  - repeat constructor; eexists; reflexivity.
  - exists winner, K. split; assumption.
Defined.

Lemma major_is_text_before_first_dot_witness :
  major_of (JStr "1.0.0") = Returns "1" /\ major_of (JStr "10") = Returns "10".
Proof.
  destruct (major_is_text_before_first_dot "1" "0.0" eq_refl) as (_ & Hcut & _).
  destruct (major_is_text_before_first_dot "10" "" eq_refl) as (Hown & _).
  split; [exact Hcut | exact Hown].
Defined.

Lemma table_key_error_aborts_witness :
  More.run [Sample.django; More.lts; Sample.django] = Raises (KeyError "eol").
Proof.
  apply (table_key_error_aborts Sample.repr More.feed Sample.clock
              [Sample.django] [Sample.django] More.lts (JStr "lts")
              [JObj [("cycle", JStr "1"); ("eol", JStr "2023-12-31")]] []
              (JObj [("cycle", JStr "2")])
              [("cycle", JStr "1"); ("eol", JStr "2023-12-31")]
              "2023-12-31" (mk_datetime 2023 12 31 0 0 0 0)
              [Sample.django_upgrade] (KeyError "eol")
              eq_refl eq_refl eq_refl eq_refl eq_refl eq_refl eq_refl).
  - repeat constructor. eexists. reflexivity.
  - right. left. exists [("cycle", JStr "2")]. repeat split.
Defined.

Lemma cycle_not_yet_ended_is_skipped_witness :
  check_eol_dates Sample.repr Sample.feed More.midnight (JArr [Sample.django])
  = Returns (JArr []).
Proof.
  destruct (cycle_not_yet_ended_is_skipped Sample.repr Sample.feed More.midnight
              [] [] Sample.django
              [("cycle", JStr "1"); ("eol", JStr "2023-12-31")]
              "2023-12-31" (mk_datetime 2023 12 31 0 0 0 0) []
              eq_refl eq_refl eq_refl eq_refl eq_refl) as (_ & Hrun).
  etransitivity; [exact Hrun | reflexivity].
Defined.

(** ** The loader and main *)

Lemma parse_sbom_fst_shape (json_loads : string -> outcome json) (sbom : string) :
  (exists e, fst (parse_sbom json_loads sbom) = Raises e)
  \/ fst (parse_sbom json_loads sbom) = Returns JNull
  \/ exists items, fst (parse_sbom json_loads sbom) = Returns (JArr items).
Proof.
  pose proof (parse_sbom_cases json_loads sbom) as Hc.
  destruct (json_loads sbom) as [[| | | | | |fields]|[]];
    try (rewrite Hc; left; eexists; reflexivity);
    try (rewrite Hc; right; left; reflexivity).
  destruct (dict_get "components" fields) as [[| | | | |items|]|];
    rewrite Hc; try (right; left; reflexivity);
    right; right; eexists; reflexivity.
Qed.

Section LoaderFacts.

Variable call_model : nat -> outcome json.
Variable getenv_sbom_path : option string.
Variable default_path : string.
Variable read_text : string -> file_result.
Variable json_loads : string -> outcome json.
Variable py_repr : json -> string.
Variable http_get : nat -> string -> http_result.
Variable now : nat -> datetime.
Variable http_get_again : nat -> string -> http_result.
Variable now_again : nat -> datetime.

Local Abbreviation path := (sbom_path getenv_sbom_path default_path).
Local Abbreviation load :=
  (load_and_check_sbom getenv_sbom_path default_path read_text
                       json_loads py_repr http_get now).
Local Abbreviation check := (check_eol_dates py_repr http_get now).
Local Abbreviation main :=
  (main call_model getenv_sbom_path default_path read_text json_loads py_repr
        http_get now http_get_again now_again).

(** The loader gives None, or the parsed list after a check that returned. *)
Lemma load_cases :
  load = Returns JNull
  \/ exists sbom c rest upgrades,
       read_text path = FileText sbom
       /\ fst (parse_sbom json_loads sbom) = Returns (JArr (c :: rest))
       /\ check (JArr (c :: rest)) = Returns upgrades
       /\ load = Returns (JArr (c :: rest)).
Proof.
  unfold load_and_check_sbom.
  destruct (read_text path) as [| e |sbom] eqn:Hread;
    try (left; reflexivity).
  destruct (parse_sbom_fst_shape json_loads sbom) as [[e Hp] | [Hp | [items Hp]]];
    rewrite Hp; try (left; reflexivity).
  destruct items as [|c rest]; [left; reflexivity|].
  cbn [bind truthy].
  destruct (check (JArr (c :: rest))) as [upgrades|e] eqn:Hcheck.
  - right. exists sbom, c, rest, upgrades. repeat split; assumption || reflexivity.
  - left. reflexivity.
Qed.

(** X18: [load_and_check_sbom] never raises and never returns an empty
    list: its result is None or a non-empty list. *)
Theorem load_returns_none_or_components :
  exists v,
    load = Returns v
    /\ (v = JNull \/ exists c rest, v = JArr (c :: rest)).
Proof.
  destruct load_cases as [Hnone | (sbom & c & rest & upgrades & _ & _ & _ & Hload)].
  - exists JNull. split; [exact Hnone | left; reflexivity].
  - exists (JArr (c :: rest)). split; [exact Hload | right; exists c, rest; reflexivity].
Qed.

(** X19: the loader returns a value other than None exactly when the file
    could be read, [parse_sbom] returned that value, a non-empty list, for
    its text, and the EOL check of that list returned; the upgrades found by
    that check are not part of the result. *)
Theorem load_succeeds_iff (v : json) (Hv : v <> JNull) :
  load = Returns v
  <-> exists sbom,
        read_text path = FileText sbom
        /\ fst (parse_sbom json_loads sbom) = Returns v
        /\ truthy v = true
        /\ exists upgrades, check v = Returns upgrades.
Proof.
  split.
  - intros Hload.
    destruct load_cases as [Hnone | (sbom & c & rest & upgrades & Hread & Hp & Hc & Hl)].
    + rewrite Hnone in Hload. congruence.
    + rewrite Hl in Hload. injection Hload as <-.
      exists sbom. repeat split; try assumption. exists upgrades. exact Hc.
  - intros (sbom & Hread & Hp & Htruthy & upgrades & Hc).
    unfold load_and_check_sbom. rewrite Hread, Hp. cbn [bind].
    rewrite Htruthy, Hc. reflexivity.
Qed.

(** X20: an exception of the EOL check inside the loader is swallowed: when
    the file was read and parsed into a non-empty list but the check of that
    list raises, the loader gives None, and [main], once its first call of
    the model has returned, ends without raising, without a check of its own
    and without a further call of the model. *)
Theorem first_check_error_is_swallowed
  (sbom : string) (frameworks reply : json) (e : exn)
  (Hmodel : call_model 0%nat = Returns reply)
  (Hread : read_text path = FileText sbom)
  (Hparse : fst (parse_sbom json_loads sbom) = Returns frameworks)
  (Htruthy : truthy frameworks = true)
  (Hcheck : check frameworks = Raises e) :
  load = Returns JNull
  /\ main = (Returns JNull, [ModelCall 0; LoadSbom]).
Proof.
  assert (Hload : load = Returns JNull).
  { unfold load_and_check_sbom. rewrite Hread, Hparse. cbn [bind].
    rewrite Htruthy, Hcheck. reflexivity. }
  split; [exact Hload|].
  unfold main. rewrite Hmodel, Hload. reflexivity.
Qed.

(** X22: the check in [main] has no handler: when the loader has returned
    its list and the feed makes the second check raise, the exception leaves
    [main], and the two further calls of the model are not made. *)
Theorem second_check_error_leaves_main
  (frameworks reply : json) (e : exn)
  (Hmodel : call_model 0%nat = Returns reply)
  (Hload : load = Returns frameworks)
  (Hsome : frameworks <> JNull)
  (Hcheck : check_eol_dates py_repr http_get_again now_again frameworks = Raises e) :
  main = (Raises e, [ModelCall 0; LoadSbom; CheckEol]).
Proof.
  unfold main. rewrite Hmodel.
  destruct load_cases as [Hnone | (sbom & c & rest & upgrades & _ & _ & _ & Hl)].
  - rewrite Hnone in Hload. congruence.
  - rewrite Hl in Hload |- *. injection Hload as <-.
    cbn [truthy negb]. rewrite Hcheck. reflexivity.
Qed.

End LoaderFacts.

Lemma load_succeeds_iff_witness :
  More.load None = Returns (JArr [Sample.django]).
Proof.
  apply (load_succeeds_iff None "/srv/app/sbom.json" More.disk More.loads
           Sample.repr Sample.feed Sample.clock (JArr [Sample.django])).
  - discriminate.
  - exists More.sbom_one. repeat split.
    exists (JArr [Sample.django_upgrade]). reflexivity.
Defined.

Lemma first_check_error_is_swallowed_witness :
  More.load (Some "/srv/rails/sbom.json") = Returns JNull
  /\ More.run_main (Some "/srv/rails/sbom.json") Sample.feed
     = (Returns JNull, [ModelCall 0; LoadSbom]).
Proof.
  apply (first_check_error_is_swallowed More.answering
           (Some "/srv/rails/sbom.json") "/srv/app/sbom.json" More.disk More.loads
           Sample.repr Sample.feed Sample.clock Sample.feed Sample.clock
           More.sbom_rails (JArr [Sample.rails]) (JStr "ok") ValueError);
    reflexivity.
Defined.

Lemma second_check_error_leaves_main_witness :
  More.run_main None More.feed_later
  = (Raises ValueError, [ModelCall 0; LoadSbom; CheckEol]).
Proof.
  apply (second_check_error_leaves_main More.answering
           None "/srv/app/sbom.json" More.disk More.loads
           Sample.repr Sample.feed Sample.clock More.feed_later Sample.clock
           (JArr [Sample.django]) (JStr "ok") ValueError);
    reflexivity || discriminate.
Defined.
